(** * EntityItem: the entity record of libraries/entities/src/EntityItem.h

    A shallow embedding of the [EntityItem] base class: its data members as a
    record, the inline member functions of the header as functions on that
    record, and the wire codec and change tracking that the header only
    declares, modelled from the specification.

    Conventions.
    - [quint64] and [uint32_t] values are [Z]; where C++ arithmetic wraps, the
      wrap-around is written out.
    - A C++ [float] is its IEEE-754 binary32 bit pattern, a [Z] below [2^32];
      comparisons and products go through [SpecFloat] at precision 24.
    - [usecTimestampNow()] reads the clock: functions that call it take the
      reading as an argument [now].
    - Bytes on the wire are [byte]s, little-endian words are split and
      combined with [le_split] and [le_combine]. *)

From Stdlib Require Import ZArith List Lia Bool String.
From Stdlib Require Import Floats.SpecFloat.
From coqutil Require Import Byte Word.LittleEndianList.
Import ListNotations.
Local Open Scope Z_scope.

(** ** IEEE-754 binary32 *)

Module Float32.

Definition float : Type := Z.

Definition prec : Z := 24.
Definition emax : Z := 128.

(** A bit pattern is well formed when it fits the 32 bits of a [float]. *)
Definition wf (a : float) : Prop := 0 <= a < 2 ^ 32.

Definition sign_of (a : float) : bool := Z.testbit a 31.
Definition expo_of (a : float) : Z := Z.land (Z.shiftr a 23) 255.
Definition frac_of (a : float) : Z := Z.land a 8388607.

(** The number a bit pattern denotes. *)
Definition to_spec (a : float) : spec_float :=
  let s := sign_of a in
  let ex := expo_of a in
  let fr := frac_of a in
  if ex =? 255 then (if fr =? 0 then S754_infinity s else S754_nan)
  else if ex =? 0 then
    match fr with
    | Zpos m => S754_finite s m (-149)
    | _ => S754_zero s
    end
  else
    match fr + 8388608 with
    | Zpos m => S754_finite s m (ex - 150)
    | _ => S754_nan
    end.

Definition sign_bit (s : bool) : Z := if s then 2 ^ 31 else 0.

(** The bit pattern of a number; the quiet NaN stands for every NaN. *)
Definition of_spec (f : spec_float) : float :=
  match f with
  | S754_zero s => sign_bit s
  | S754_infinity s => sign_bit s + 0x7f800000
  | S754_nan => 0x7fc00000
  | S754_finite s m e =>
      if Zpos m <? 8388608 then sign_bit s + Zpos m
      else sign_bit s + (e + 150) * 8388608 + (Zpos m - 8388608)
  end.

Definition zero : float := 0.            (* 0.0f *)
Definition one : float := 0x3f800000.    (* 1.0f *)

Definition isnan (a : float) : bool :=
  match to_spec a with S754_nan => true | _ => false end.

(** C++ [<], [<=] and [==] on floats: false as soon as one side is a NaN. *)
Definition ltb (a b : float) : bool := SFltb (to_spec a) (to_spec b).
Definition leb (a b : float) : bool := SFleb (to_spec a) (to_spec b).
Definition eqb (a b : float) : bool := SFeqb (to_spec a) (to_spec b).

(** C++ [*] on floats, rounding to nearest even. *)
Definition mul (a b : float) : float :=
  of_spec (SFmul prec emax (to_spec a) (to_spec b)).

(** [fabsf]: the sign bit is cleared. *)
Definition abs (a : float) : float := Z.land a 0x7fffffff.


End Float32.

Abbreviation float := Float32.float.

(** ** The parts of GLM the header uses *)

Module glm.

Record vec3 : Type := mkvec3 { x : float; y : float; z : float }.
Record quat : Type := mkquat { qx : float; qy : float; qz : float; qw : float }.

(** GLSL [max] and [min]: [max a b] is [b] if [a < b], otherwise [a];
    [min a b] is [b] if [b < a], otherwise [a]. *)
Definition maxf (a b : float) : float := if Float32.ltb a b then b else a.
Definition minf (a b : float) : float := if Float32.ltb b a then b else a.

(** GLSL [clamp]: [min (max v lo) hi]. *)
Definition clampf (v lo hi : float) : float := minf (maxf v lo) hi.

Definition clamp (v : vec3) (lo hi : float) : vec3 :=
  mkvec3 (clampf (x v) lo hi) (clampf (y v) lo hi) (clampf (z v) lo hi).

Definition abs (v : vec3) : vec3 :=
  mkvec3 (Float32.abs (x v)) (Float32.abs (y v)) (Float32.abs (z v)).

(** [operator*(vec3, float)] *)
Definition scale (v : vec3) (s : float) : vec3 :=
  mkvec3 (Float32.mul (x v) s) (Float32.mul (y v) s) (Float32.mul (z v) s).

(** [glm::max] at [quint64] *)
Definition max (a b : Z) : Z := if a <? b then b else a.


Definition wf_vec3 (v : vec3) : Prop :=
  Float32.wf (x v) /\ Float32.wf (y v) /\ Float32.wf (z v).
Definition wf_quat (q : quat) : Prop :=
  Float32.wf (qx q) /\ Float32.wf (qy q) /\ Float32.wf (qz q) /\ Float32.wf (qw q).

End glm.

(** ** The entity record *)

Definition QString : Type := string.

Record EntityItem : Type := mkEntityItem {
  _type : Z;  (* EntityTypes::EntityType, as its enumerator value *)
  _id : Z;  (* QUuid, a 128-bit identifier *)
  _creatorTokenID : Z;  (* uint32_t *)
  _newlyCreated : bool;
  _lastSimulated : Z;  (* quint64, universal usecs *)
  _lastUpdated : Z;  (* quint64 *)
  _lastEdited : Z;  (* quint64 *)
  _lastEditedFromRemote : Z;  (* quint64 *)
  _lastEditedFromRemoteInRemoteTime : Z;  (* quint64 *)
  _created : Z;  (* quint64 *)
  _changedOnServer : Z;  (* quint64 *)
  _position : glm.vec3;
  _dimensions : glm.vec3;
  _rotation : glm.quat;
  _glowLevel : float;
  _localRenderAlpha : float;
  _density : float;  (* kg/m^3 *)
  _volumeMultiplier : float;
  _velocity : glm.vec3;
  _gravity : glm.vec3;
  _damping : float;
  _lifetime : float;
  _script : QString;
  _registrationPoint : glm.vec3;
  _angularVelocity : glm.vec3;
  _angularDamping : float;
  _visible : bool;
  _ignoreForCollisions : bool;
  _collisionsWillMove : bool;
  _locked : bool;
  _userData : QString;
  _physicsInfo : Z;  (* void*, only set by EntitySimulation *)
  _dirtyFlags : Z;  (* uint32_t *)
  _element : Z  (* EntityTreeElement*, back pointer *)
}.

(* Field updates: C++ assigns one member and leaves the others alone. *)



Definition with_lastSimulated (v : Z) (e : EntityItem) : EntityItem :=
  mkEntityItem (_type e) (_id e) (_creatorTokenID e) (_newlyCreated e) v (_lastUpdated e)
    (_lastEdited e) (_lastEditedFromRemote e) (_lastEditedFromRemoteInRemoteTime e)
    (_created e) (_changedOnServer e) (_position e) (_dimensions e) (_rotation e)
    (_glowLevel e) (_localRenderAlpha e) (_density e) (_volumeMultiplier e) (_velocity e)
    (_gravity e) (_damping e) (_lifetime e) (_script e) (_registrationPoint e)
    (_angularVelocity e) (_angularDamping e) (_visible e) (_ignoreForCollisions e)
    (_collisionsWillMove e) (_locked e) (_userData e) (_physicsInfo e) (_dirtyFlags e)
    (_element e).

Definition with_lastUpdated (v : Z) (e : EntityItem) : EntityItem :=
  mkEntityItem (_type e) (_id e) (_creatorTokenID e) (_newlyCreated e) (_lastSimulated e)
    v (_lastEdited e) (_lastEditedFromRemote e) (_lastEditedFromRemoteInRemoteTime e)
    (_created e) (_changedOnServer e) (_position e) (_dimensions e) (_rotation e)
    (_glowLevel e) (_localRenderAlpha e) (_density e) (_volumeMultiplier e) (_velocity e)
    (_gravity e) (_damping e) (_lifetime e) (_script e) (_registrationPoint e)
    (_angularVelocity e) (_angularDamping e) (_visible e) (_ignoreForCollisions e)
    (_collisionsWillMove e) (_locked e) (_userData e) (_physicsInfo e) (_dirtyFlags e)
    (_element e).

Definition with_lastEdited (v : Z) (e : EntityItem) : EntityItem :=
  mkEntityItem (_type e) (_id e) (_creatorTokenID e) (_newlyCreated e) (_lastSimulated e)
    (_lastUpdated e) v (_lastEditedFromRemote e) (_lastEditedFromRemoteInRemoteTime e)
    (_created e) (_changedOnServer e) (_position e) (_dimensions e) (_rotation e)
    (_glowLevel e) (_localRenderAlpha e) (_density e) (_volumeMultiplier e) (_velocity e)
    (_gravity e) (_damping e) (_lifetime e) (_script e) (_registrationPoint e)
    (_angularVelocity e) (_angularDamping e) (_visible e) (_ignoreForCollisions e)
    (_collisionsWillMove e) (_locked e) (_userData e) (_physicsInfo e) (_dirtyFlags e)
    (_element e).


Definition with_changedOnServer (v : Z) (e : EntityItem) : EntityItem :=
  mkEntityItem (_type e) (_id e) (_creatorTokenID e) (_newlyCreated e) (_lastSimulated e)
    (_lastUpdated e) (_lastEdited e) (_lastEditedFromRemote e)
    (_lastEditedFromRemoteInRemoteTime e) (_created e) v (_position e) (_dimensions e)
    (_rotation e) (_glowLevel e) (_localRenderAlpha e) (_density e) (_volumeMultiplier e)
    (_velocity e) (_gravity e) (_damping e) (_lifetime e) (_script e)
    (_registrationPoint e) (_angularVelocity e) (_angularDamping e) (_visible e)
    (_ignoreForCollisions e) (_collisionsWillMove e) (_locked e) (_userData e)
    (_physicsInfo e) (_dirtyFlags e) (_element e).

Definition with_position (v : glm.vec3) (e : EntityItem) : EntityItem :=
  mkEntityItem (_type e) (_id e) (_creatorTokenID e) (_newlyCreated e) (_lastSimulated e)
    (_lastUpdated e) (_lastEdited e) (_lastEditedFromRemote e)
    (_lastEditedFromRemoteInRemoteTime e) (_created e) (_changedOnServer e) v
    (_dimensions e) (_rotation e) (_glowLevel e) (_localRenderAlpha e) (_density e)
    (_volumeMultiplier e) (_velocity e) (_gravity e) (_damping e) (_lifetime e)
    (_script e) (_registrationPoint e) (_angularVelocity e) (_angularDamping e)
    (_visible e) (_ignoreForCollisions e) (_collisionsWillMove e) (_locked e)
    (_userData e) (_physicsInfo e) (_dirtyFlags e) (_element e).

Definition with_dimensions (v : glm.vec3) (e : EntityItem) : EntityItem :=
  mkEntityItem (_type e) (_id e) (_creatorTokenID e) (_newlyCreated e) (_lastSimulated e)
    (_lastUpdated e) (_lastEdited e) (_lastEditedFromRemote e)
    (_lastEditedFromRemoteInRemoteTime e) (_created e) (_changedOnServer e) (_position e)
    v (_rotation e) (_glowLevel e) (_localRenderAlpha e) (_density e)
    (_volumeMultiplier e) (_velocity e) (_gravity e) (_damping e) (_lifetime e)
    (_script e) (_registrationPoint e) (_angularVelocity e) (_angularDamping e)
    (_visible e) (_ignoreForCollisions e) (_collisionsWillMove e) (_locked e)
    (_userData e) (_physicsInfo e) (_dirtyFlags e) (_element e).

Definition with_rotation (v : glm.quat) (e : EntityItem) : EntityItem :=
  mkEntityItem (_type e) (_id e) (_creatorTokenID e) (_newlyCreated e) (_lastSimulated e)
    (_lastUpdated e) (_lastEdited e) (_lastEditedFromRemote e)
    (_lastEditedFromRemoteInRemoteTime e) (_created e) (_changedOnServer e) (_position e)
    (_dimensions e) v (_glowLevel e) (_localRenderAlpha e) (_density e)
    (_volumeMultiplier e) (_velocity e) (_gravity e) (_damping e) (_lifetime e)
    (_script e) (_registrationPoint e) (_angularVelocity e) (_angularDamping e)
    (_visible e) (_ignoreForCollisions e) (_collisionsWillMove e) (_locked e)
    (_userData e) (_physicsInfo e) (_dirtyFlags e) (_element e).



Definition with_density (v : float) (e : EntityItem) : EntityItem :=
  mkEntityItem (_type e) (_id e) (_creatorTokenID e) (_newlyCreated e) (_lastSimulated e)
    (_lastUpdated e) (_lastEdited e) (_lastEditedFromRemote e)
    (_lastEditedFromRemoteInRemoteTime e) (_created e) (_changedOnServer e) (_position e)
    (_dimensions e) (_rotation e) (_glowLevel e) (_localRenderAlpha e) v
    (_volumeMultiplier e) (_velocity e) (_gravity e) (_damping e) (_lifetime e)
    (_script e) (_registrationPoint e) (_angularVelocity e) (_angularDamping e)
    (_visible e) (_ignoreForCollisions e) (_collisionsWillMove e) (_locked e)
    (_userData e) (_physicsInfo e) (_dirtyFlags e) (_element e).

Definition with_velocity (v : glm.vec3) (e : EntityItem) : EntityItem :=
  mkEntityItem (_type e) (_id e) (_creatorTokenID e) (_newlyCreated e) (_lastSimulated e)
    (_lastUpdated e) (_lastEdited e) (_lastEditedFromRemote e)
    (_lastEditedFromRemoteInRemoteTime e) (_created e) (_changedOnServer e) (_position e)
    (_dimensions e) (_rotation e) (_glowLevel e) (_localRenderAlpha e) (_density e)
    (_volumeMultiplier e) v (_gravity e) (_damping e) (_lifetime e) (_script e)
    (_registrationPoint e) (_angularVelocity e) (_angularDamping e) (_visible e)
    (_ignoreForCollisions e) (_collisionsWillMove e) (_locked e) (_userData e)
    (_physicsInfo e) (_dirtyFlags e) (_element e).

Definition with_gravity (v : glm.vec3) (e : EntityItem) : EntityItem :=
  mkEntityItem (_type e) (_id e) (_creatorTokenID e) (_newlyCreated e) (_lastSimulated e)
    (_lastUpdated e) (_lastEdited e) (_lastEditedFromRemote e)
    (_lastEditedFromRemoteInRemoteTime e) (_created e) (_changedOnServer e) (_position e)
    (_dimensions e) (_rotation e) (_glowLevel e) (_localRenderAlpha e) (_density e)
    (_volumeMultiplier e) (_velocity e) v (_damping e) (_lifetime e) (_script e)
    (_registrationPoint e) (_angularVelocity e) (_angularDamping e) (_visible e)
    (_ignoreForCollisions e) (_collisionsWillMove e) (_locked e) (_userData e)
    (_physicsInfo e) (_dirtyFlags e) (_element e).

Definition with_damping (v : float) (e : EntityItem) : EntityItem :=
  mkEntityItem (_type e) (_id e) (_creatorTokenID e) (_newlyCreated e) (_lastSimulated e)
    (_lastUpdated e) (_lastEdited e) (_lastEditedFromRemote e)
    (_lastEditedFromRemoteInRemoteTime e) (_created e) (_changedOnServer e) (_position e)
    (_dimensions e) (_rotation e) (_glowLevel e) (_localRenderAlpha e) (_density e)
    (_volumeMultiplier e) (_velocity e) (_gravity e) v (_lifetime e) (_script e)
    (_registrationPoint e) (_angularVelocity e) (_angularDamping e) (_visible e)
    (_ignoreForCollisions e) (_collisionsWillMove e) (_locked e) (_userData e)
    (_physicsInfo e) (_dirtyFlags e) (_element e).

Definition with_lifetime (v : float) (e : EntityItem) : EntityItem :=
  mkEntityItem (_type e) (_id e) (_creatorTokenID e) (_newlyCreated e) (_lastSimulated e)
    (_lastUpdated e) (_lastEdited e) (_lastEditedFromRemote e)
    (_lastEditedFromRemoteInRemoteTime e) (_created e) (_changedOnServer e) (_position e)
    (_dimensions e) (_rotation e) (_glowLevel e) (_localRenderAlpha e) (_density e)
    (_volumeMultiplier e) (_velocity e) (_gravity e) (_damping e) v (_script e)
    (_registrationPoint e) (_angularVelocity e) (_angularDamping e) (_visible e)
    (_ignoreForCollisions e) (_collisionsWillMove e) (_locked e) (_userData e)
    (_physicsInfo e) (_dirtyFlags e) (_element e).

Definition with_script (v : QString) (e : EntityItem) : EntityItem :=
  mkEntityItem (_type e) (_id e) (_creatorTokenID e) (_newlyCreated e) (_lastSimulated e)
    (_lastUpdated e) (_lastEdited e) (_lastEditedFromRemote e)
    (_lastEditedFromRemoteInRemoteTime e) (_created e) (_changedOnServer e) (_position e)
    (_dimensions e) (_rotation e) (_glowLevel e) (_localRenderAlpha e) (_density e)
    (_volumeMultiplier e) (_velocity e) (_gravity e) (_damping e) (_lifetime e) v
    (_registrationPoint e) (_angularVelocity e) (_angularDamping e) (_visible e)
    (_ignoreForCollisions e) (_collisionsWillMove e) (_locked e) (_userData e)
    (_physicsInfo e) (_dirtyFlags e) (_element e).

Definition with_registrationPoint (v : glm.vec3) (e : EntityItem) : EntityItem :=
  mkEntityItem (_type e) (_id e) (_creatorTokenID e) (_newlyCreated e) (_lastSimulated e)
    (_lastUpdated e) (_lastEdited e) (_lastEditedFromRemote e)
    (_lastEditedFromRemoteInRemoteTime e) (_created e) (_changedOnServer e) (_position e)
    (_dimensions e) (_rotation e) (_glowLevel e) (_localRenderAlpha e) (_density e)
    (_volumeMultiplier e) (_velocity e) (_gravity e) (_damping e) (_lifetime e)
    (_script e) v (_angularVelocity e) (_angularDamping e) (_visible e)
    (_ignoreForCollisions e) (_collisionsWillMove e) (_locked e) (_userData e)
    (_physicsInfo e) (_dirtyFlags e) (_element e).

Definition with_angularVelocity (v : glm.vec3) (e : EntityItem) : EntityItem :=
  mkEntityItem (_type e) (_id e) (_creatorTokenID e) (_newlyCreated e) (_lastSimulated e)
    (_lastUpdated e) (_lastEdited e) (_lastEditedFromRemote e)
    (_lastEditedFromRemoteInRemoteTime e) (_created e) (_changedOnServer e) (_position e)
    (_dimensions e) (_rotation e) (_glowLevel e) (_localRenderAlpha e) (_density e)
    (_volumeMultiplier e) (_velocity e) (_gravity e) (_damping e) (_lifetime e)
    (_script e) (_registrationPoint e) v (_angularDamping e) (_visible e)
    (_ignoreForCollisions e) (_collisionsWillMove e) (_locked e) (_userData e)
    (_physicsInfo e) (_dirtyFlags e) (_element e).

Definition with_angularDamping (v : float) (e : EntityItem) : EntityItem :=
  mkEntityItem (_type e) (_id e) (_creatorTokenID e) (_newlyCreated e) (_lastSimulated e)
    (_lastUpdated e) (_lastEdited e) (_lastEditedFromRemote e)
    (_lastEditedFromRemoteInRemoteTime e) (_created e) (_changedOnServer e) (_position e)
    (_dimensions e) (_rotation e) (_glowLevel e) (_localRenderAlpha e) (_density e)
    (_volumeMultiplier e) (_velocity e) (_gravity e) (_damping e) (_lifetime e)
    (_script e) (_registrationPoint e) (_angularVelocity e) v (_visible e)
    (_ignoreForCollisions e) (_collisionsWillMove e) (_locked e) (_userData e)
    (_physicsInfo e) (_dirtyFlags e) (_element e).

Definition with_visible (v : bool) (e : EntityItem) : EntityItem :=
  mkEntityItem (_type e) (_id e) (_creatorTokenID e) (_newlyCreated e) (_lastSimulated e)
    (_lastUpdated e) (_lastEdited e) (_lastEditedFromRemote e)
    (_lastEditedFromRemoteInRemoteTime e) (_created e) (_changedOnServer e) (_position e)
    (_dimensions e) (_rotation e) (_glowLevel e) (_localRenderAlpha e) (_density e)
    (_volumeMultiplier e) (_velocity e) (_gravity e) (_damping e) (_lifetime e)
    (_script e) (_registrationPoint e) (_angularVelocity e) (_angularDamping e) v
    (_ignoreForCollisions e) (_collisionsWillMove e) (_locked e) (_userData e)
    (_physicsInfo e) (_dirtyFlags e) (_element e).

Definition with_ignoreForCollisions (v : bool) (e : EntityItem) : EntityItem :=
  mkEntityItem (_type e) (_id e) (_creatorTokenID e) (_newlyCreated e) (_lastSimulated e)
    (_lastUpdated e) (_lastEdited e) (_lastEditedFromRemote e)
    (_lastEditedFromRemoteInRemoteTime e) (_created e) (_changedOnServer e) (_position e)
    (_dimensions e) (_rotation e) (_glowLevel e) (_localRenderAlpha e) (_density e)
    (_volumeMultiplier e) (_velocity e) (_gravity e) (_damping e) (_lifetime e)
    (_script e) (_registrationPoint e) (_angularVelocity e) (_angularDamping e)
    (_visible e) v (_collisionsWillMove e) (_locked e) (_userData e) (_physicsInfo e)
    (_dirtyFlags e) (_element e).

Definition with_collisionsWillMove (v : bool) (e : EntityItem) : EntityItem :=
  mkEntityItem (_type e) (_id e) (_creatorTokenID e) (_newlyCreated e) (_lastSimulated e)
    (_lastUpdated e) (_lastEdited e) (_lastEditedFromRemote e)
    (_lastEditedFromRemoteInRemoteTime e) (_created e) (_changedOnServer e) (_position e)
    (_dimensions e) (_rotation e) (_glowLevel e) (_localRenderAlpha e) (_density e)
    (_volumeMultiplier e) (_velocity e) (_gravity e) (_damping e) (_lifetime e)
    (_script e) (_registrationPoint e) (_angularVelocity e) (_angularDamping e)
    (_visible e) (_ignoreForCollisions e) v (_locked e) (_userData e) (_physicsInfo e)
    (_dirtyFlags e) (_element e).

Definition with_locked (v : bool) (e : EntityItem) : EntityItem :=
  mkEntityItem (_type e) (_id e) (_creatorTokenID e) (_newlyCreated e) (_lastSimulated e)
    (_lastUpdated e) (_lastEdited e) (_lastEditedFromRemote e)
    (_lastEditedFromRemoteInRemoteTime e) (_created e) (_changedOnServer e) (_position e)
    (_dimensions e) (_rotation e) (_glowLevel e) (_localRenderAlpha e) (_density e)
    (_volumeMultiplier e) (_velocity e) (_gravity e) (_damping e) (_lifetime e)
    (_script e) (_registrationPoint e) (_angularVelocity e) (_angularDamping e)
    (_visible e) (_ignoreForCollisions e) (_collisionsWillMove e) v (_userData e)
    (_physicsInfo e) (_dirtyFlags e) (_element e).

Definition with_userData (v : QString) (e : EntityItem) : EntityItem :=
  mkEntityItem (_type e) (_id e) (_creatorTokenID e) (_newlyCreated e) (_lastSimulated e)
    (_lastUpdated e) (_lastEdited e) (_lastEditedFromRemote e)
    (_lastEditedFromRemoteInRemoteTime e) (_created e) (_changedOnServer e) (_position e)
    (_dimensions e) (_rotation e) (_glowLevel e) (_localRenderAlpha e) (_density e)
    (_volumeMultiplier e) (_velocity e) (_gravity e) (_damping e) (_lifetime e)
    (_script e) (_registrationPoint e) (_angularVelocity e) (_angularDamping e)
    (_visible e) (_ignoreForCollisions e) (_collisionsWillMove e) (_locked e) v
    (_physicsInfo e) (_dirtyFlags e) (_element e).


Definition with_dirtyFlags (v : Z) (e : EntityItem) : EntityItem :=
  mkEntityItem (_type e) (_id e) (_creatorTokenID e) (_newlyCreated e) (_lastSimulated e)
    (_lastUpdated e) (_lastEdited e) (_lastEditedFromRemote e)
    (_lastEditedFromRemoteInRemoteTime e) (_created e) (_changedOnServer e) (_position e)
    (_dimensions e) (_rotation e) (_glowLevel e) (_localRenderAlpha e) (_density e)
    (_volumeMultiplier e) (_velocity e) (_gravity e) (_damping e) (_lifetime e)
    (_script e) (_registrationPoint e) (_angularVelocity e) (_angularDamping e)
    (_visible e) (_ignoreForCollisions e) (_collisionsWillMove e) (_locked e)
    (_userData e) (_physicsInfo e) v (_element e).

(** ** The inline member functions of the header *)

(** [enum EntityDirtyFlags] *)
Definition DIRTY_POSITION : Z := 0x0001.
Definition DIRTY_MASS : Z := 0x0004.
Definition DIRTY_COLLISION_GROUP : Z := 0x0008.
Definition DIRTY_MOTION_TYPE : Z := 0x0010.
Definition DIRTY_SHAPE : Z := 0x0020.
Definition DIRTY_LIFETIME : Z := 0x0040.
Definition DIRTY_UPDATEABLE : Z := 0x0080.

(** [~mask] at [uint32_t] *)
Definition not32 (mask : Z) : Z := Z.lnot mask mod 2 ^ 32.

Section Header.

(** Constants that the header uses and other files of the repository
    define: the world scale after its cast, [(float)TREE_SCALE], and the
    lifetime that marks an entity as immortal. *)
Variable TREE_SCALE : float.
Variable ENTITY_ITEM_IMMORTAL_LIFETIME : float.

Definition getID (e : EntityItem) : Z := _id e.
Definition getCreatorTokenID (e : EntityItem) : Z := _creatorTokenID e.

Definition getLastSimulated (e : EntityItem) : Z := _lastSimulated e.
Definition setLastSimulated (now : Z) (e : EntityItem) : EntityItem :=
  with_lastSimulated now e.

Definition getLastEdited (e : EntityItem) : Z := _lastEdited e.

(** [_lastEdited = _lastUpdated = lastEdited;
     _changedOnServer = glm::max(lastEdited, _changedOnServer);] *)
Definition setLastEdited (lastEdited : Z) (e : EntityItem) : EntityItem :=
  let e1 := with_lastUpdated lastEdited e in
  let e2 := with_lastEdited lastEdited e1 in
  with_changedOnServer (glm.max lastEdited (_changedOnServer e2)) e2.

Definition markAsChangedOnServer (now : Z) (e : EntityItem) : EntityItem :=
  with_changedOnServer now e.
Definition getLastChangedOnServer (e : EntityItem) : Z := _changedOnServer e.

Definition update (now : Z) (e : EntityItem) : EntityItem := with_lastUpdated now e.
Definition getLastUpdated (e : EntityItem) : Z := _lastUpdated e.

Definition getPositionInMeters (e : EntityItem) : glm.vec3 := _position e.
Definition setPositionInMeters (value : glm.vec3) (e : EntityItem) : EntityItem :=
  with_position value e.
Definition setPositionInDomainUnits (value : glm.vec3) (e : EntityItem) : EntityItem :=
  setPositionInMeters
    (glm.scale (glm.clamp value Float32.zero Float32.one) TREE_SCALE) e.

Definition getDimensionsInMeters (e : EntityItem) : glm.vec3 := _dimensions e.
Definition setDimensionsInDomainUnits (value : glm.vec3) (e : EntityItem) : EntityItem :=
  with_dimensions (glm.scale (glm.abs value) TREE_SCALE) e.
Definition setDimensionsInMeters (value : glm.vec3) (e : EntityItem) : EntityItem :=
  with_dimensions (glm.abs value) e.

Definition getRotation (e : EntityItem) : glm.quat := _rotation e.

Definition getGlowLevel (e : EntityItem) : float := _glowLevel e.
Definition getLocalRenderAlpha (e : EntityItem) : float := _localRenderAlpha e.

Definition getDensity (e : EntityItem) : float := _density e.

Definition getVelocityInMeters (e : EntityItem) : glm.vec3 := _velocity e.
Definition setVelocityInMeters (value : glm.vec3) (e : EntityItem) : EntityItem :=
  with_velocity value e.

Definition getGravityInMeters (e : EntityItem) : glm.vec3 := _gravity e.
Definition setGravityInMeters (value : glm.vec3) (e : EntityItem) : EntityItem :=
  with_gravity value e.

Definition getDamping (e : EntityItem) : float := _damping e.

Definition getLifetime (e : EntityItem) : float := _lifetime e.
Definition setLifetime (value : float) (e : EntityItem) : EntityItem :=
  with_lifetime value e.

Definition isImmortal (e : EntityItem) : bool :=
  Float32.eqb (_lifetime e) ENTITY_ITEM_IMMORTAL_LIFETIME.
Definition isMortal (e : EntityItem) : bool :=
  negb (Float32.eqb (_lifetime e) ENTITY_ITEM_IMMORTAL_LIFETIME).

Definition getScript (e : EntityItem) : QString := _script e.

Definition getRegistrationPoint (e : EntityItem) : glm.vec3 := _registrationPoint e.
Definition setRegistrationPoint (value : glm.vec3) (e : EntityItem) : EntityItem :=
  with_registrationPoint (glm.clamp value Float32.zero Float32.one) e.

Definition getAngularVelocity (e : EntityItem) : glm.vec3 := _angularVelocity e.
Definition setAngularVelocity (value : glm.vec3) (e : EntityItem) : EntityItem :=
  with_angularVelocity value e.
Definition getAngularDamping (e : EntityItem) : float := _angularDamping e.

Definition getVisible (e : EntityItem) : bool := _visible e.
Definition getIgnoreForCollisions (e : EntityItem) : bool := _ignoreForCollisions e.
Definition getCollisionsWillMove (e : EntityItem) : bool := _collisionsWillMove e.
Definition getLocked (e : EntityItem) : bool := _locked e.
Definition getUserData (e : EntityItem) : QString := _userData e.

Definition getDirtyFlags (e : EntityItem) : Z := _dirtyFlags e.

(** [_dirtyFlags &= ~mask], the mask defaulting to [0xffff] *)
Definition clearDirtyFlags (mask : Z) (e : EntityItem) : EntityItem :=
  with_dirtyFlags (Z.land (_dirtyFlags e) (not32 mask)) e.

Definition getPhysicsInfo (e : EntityItem) : Z := _physicsInfo e.

End Header.

(** ** Change tracking and lifetime *)

Definition markDirty (flag : Z) (e : EntityItem) : EntityItem :=
  with_dirtyFlags (Z.lor (_dirtyFlags e) flag) e.




Section Lifetime.

Variable ENTITY_ITEM_IMMORTAL_LIFETIME : float.
(** [(float)USECS_PER_SECOND], defined in another file of the repository. *)
Variable USECS_PER_SECOND : float.



End Lifetime.

(** ** Properties *)

(** Modelled from the spec: the property list of [EntityItemProperties.h],
    which is not part of the sources at hand.  The properties are those of the
    entity record in the spec's data model, "enumerated in a fixed priority
    order (most synchronization-critical first - transform and motion before
    cosmetic fields)". *)
Inductive EntityPropertyList : Type :=
  | PROP_POSITION
  | PROP_DIMENSIONS
  | PROP_ROTATION
  | PROP_VELOCITY
  | PROP_ANGULAR_VELOCITY
  | PROP_GRAVITY
  | PROP_DAMPING
  | PROP_ANGULAR_DAMPING
  | PROP_DENSITY
  | PROP_LIFETIME
  | PROP_SCRIPT
  | PROP_USER_DATA
  | PROP_VISIBLE
  | PROP_LOCKED
  | PROP_IGNORE_FOR_COLLISIONS
  | PROP_COLLISIONS_WILL_MOVE.

Definition allProperties : list EntityPropertyList :=
  [ PROP_POSITION; PROP_DIMENSIONS; PROP_ROTATION; PROP_VELOCITY;
    PROP_ANGULAR_VELOCITY; PROP_GRAVITY; PROP_DAMPING; PROP_ANGULAR_DAMPING;
    PROP_DENSITY; PROP_LIFETIME; PROP_SCRIPT; PROP_USER_DATA; PROP_VISIBLE;
    PROP_LOCKED; PROP_IGNORE_FOR_COLLISIONS; PROP_COLLISIONS_WILL_MOVE ].

(** The place of a property in the priority order, which is also its bit in
    the flag set. *)
Definition propertyIndex (p : EntityPropertyList) : Z :=
  match p with
  | PROP_POSITION => 0
  | PROP_DIMENSIONS => 1
  | PROP_ROTATION => 2
  | PROP_VELOCITY => 3
  | PROP_ANGULAR_VELOCITY => 4
  | PROP_GRAVITY => 5
  | PROP_DAMPING => 6
  | PROP_ANGULAR_DAMPING => 7
  | PROP_DENSITY => 8
  | PROP_LIFETIME => 9
  | PROP_SCRIPT => 10
  | PROP_USER_DATA => 11
  | PROP_VISIBLE => 12
  | PROP_LOCKED => 13
  | PROP_IGNORE_FOR_COLLISIONS => 14
  | PROP_COLLISIONS_WILL_MOVE => 15
  end.

Inductive PropertyKind : Type := KVec3 | KQuat | KFloat | KBool | KString.

Definition kindOf (p : EntityPropertyList) : PropertyKind :=
  match p with
  | PROP_POSITION | PROP_DIMENSIONS | PROP_VELOCITY | PROP_ANGULAR_VELOCITY
  | PROP_GRAVITY => KVec3
  | PROP_ROTATION => KQuat
  | PROP_DAMPING | PROP_ANGULAR_DAMPING | PROP_DENSITY | PROP_LIFETIME => KFloat
  | PROP_SCRIPT | PROP_USER_DATA => KString
  | PROP_VISIBLE | PROP_LOCKED | PROP_IGNORE_FOR_COLLISIONS
  | PROP_COLLISIONS_WILL_MOVE => KBool
  end.

Inductive PropertyValue : Type :=
  | VVec3 (v : glm.vec3)
  | VQuat (q : glm.quat)
  | VFloat (f : float)
  | VBool (b : bool)
  | VString (s : QString).

Definition kindOfValue (v : PropertyValue) : PropertyKind :=
  match v with
  | VVec3 _ => KVec3
  | VQuat _ => KQuat
  | VFloat _ => KFloat
  | VBool _ => KBool
  | VString _ => KString
  end.


Definition getProperty (p : EntityPropertyList) (e : EntityItem) : PropertyValue :=
  match p with
  | PROP_POSITION => VVec3 (_position e)
  | PROP_DIMENSIONS => VVec3 (_dimensions e)
  | PROP_ROTATION => VQuat (_rotation e)
  | PROP_VELOCITY => VVec3 (_velocity e)
  | PROP_ANGULAR_VELOCITY => VVec3 (_angularVelocity e)
  | PROP_GRAVITY => VVec3 (_gravity e)
  | PROP_DAMPING => VFloat (_damping e)
  | PROP_ANGULAR_DAMPING => VFloat (_angularDamping e)
  | PROP_DENSITY => VFloat (_density e)
  | PROP_LIFETIME => VFloat (_lifetime e)
  | PROP_SCRIPT => VString (_script e)
  | PROP_USER_DATA => VString (_userData e)
  | PROP_VISIBLE => VBool (_visible e)
  | PROP_LOCKED => VBool (_locked e)
  | PROP_IGNORE_FOR_COLLISIONS => VBool (_ignoreForCollisions e)
  | PROP_COLLISIONS_WILL_MOVE => VBool (_collisionsWillMove e)
  end.

(** Applying a value to its field; a value of another kind applies to
    nothing. *)
Definition setProperty (p : EntityPropertyList) (v : PropertyValue) (e : EntityItem)
  : EntityItem :=
  match p, v with
  | PROP_POSITION, VVec3 a => with_position a e
  | PROP_DIMENSIONS, VVec3 a => with_dimensions a e
  | PROP_ROTATION, VQuat q => with_rotation q e
  | PROP_VELOCITY, VVec3 a => with_velocity a e
  | PROP_ANGULAR_VELOCITY, VVec3 a => with_angularVelocity a e
  | PROP_GRAVITY, VVec3 a => with_gravity a e
  | PROP_DAMPING, VFloat f => with_damping f e
  | PROP_ANGULAR_DAMPING, VFloat f => with_angularDamping f e
  | PROP_DENSITY, VFloat f => with_density f e
  | PROP_LIFETIME, VFloat f => with_lifetime f e
  | PROP_SCRIPT, VString s => with_script s e
  | PROP_USER_DATA, VString s => with_userData s e
  | PROP_VISIBLE, VBool b => with_visible b e
  | PROP_LOCKED, VBool b => with_locked b e
  | PROP_IGNORE_FOR_COLLISIONS, VBool b => with_ignoreForCollisions b e
  | PROP_COLLISIONS_WILL_MOVE, VBool b => with_collisionsWillMove b e
  | _, _ => e
  end.





(** ** The property codec *)

(** Modelled from the spec: [EntityPropertyFlags], the "property-flag bitset:
    one bit per recognized property, ordered by the fixed priority list". *)
Definition EntityPropertyFlags : Type := Z.

Definition getHasProperty (flags : EntityPropertyFlags) (p : EntityPropertyList) : bool :=
  Z.testbit flags (propertyIndex p).

Definition setHasProperty (p : EntityPropertyList) (flags : EntityPropertyFlags)
  : EntityPropertyFlags :=
  Z.setbit flags (propertyIndex p).

Definition ALL_PROPERTIES : EntityPropertyFlags := 0xffff.

(** The flags of the properties of a list. *)
Fixpoint flagsOf (ps : list EntityPropertyList) : EntityPropertyFlags :=
  match ps with
  | [] => 0
  | p :: ps' => setHasProperty p (flagsOf ps')
  end.

(** Modelled from the spec: the values on the wire, "little-endian
    primitives": a float is the four bytes of its bit pattern, a vector or a
    quaternion its components in turn, a boolean one byte, a string its
    length in two bytes and then its bytes, a timestamp eight bytes. *)
Definition putFloat (a : float) : list byte := le_split 4 a.

Definition putVec3 (v : glm.vec3) : list byte :=
  putFloat (glm.x v) ++ putFloat (glm.y v) ++ putFloat (glm.z v).

Definition putQuat (q : glm.quat) : list byte :=
  putFloat (glm.qx q) ++ putFloat (glm.qy q) ++ putFloat (glm.qz q)
    ++ putFloat (glm.qw q).

Definition putBool (b : bool) : list byte := le_split 1 (if b then 1 else 0).

Definition putString (s : QString) : list byte :=
  let bytes := list_byte_of_string s in
  le_split 2 (Z.of_nat (List.length bytes)) ++ bytes.

Definition putValue (v : PropertyValue) : list byte :=
  match v with
  | VVec3 a => putVec3 a
  | VQuat q => putQuat q
  | VFloat f => putFloat f
  | VBool b => putBool b
  | VString s => putString s
  end.

Definition FLAGS_BYTES : nat := 2.
Definition TIMESTAMP_BYTES : nat := 8.

(** [OctreeElement::AppendState] *)
Inductive AppendState : Type := COMPLETED | PARTIAL | NONE.

Record AppendResult : Type := mkAppendResult {
  bytesWritten : list byte;
  propertyFlags : EntityPropertyFlags;
  propertiesDidntFit : EntityPropertyFlags;
  appendState : AppendState
}.

(** Modelled from the spec: the walk of the encoder over the requested
    properties "in priority order; for each property that is both requested
    and present, it tentatively serializes value + flag bit; if appending
    would exceed the remaining byte budget, that property (and all
    lower-priority remaining ones) are recorded as didn't fit and
    serialization for this entity stops".  [room] is the remaining budget;
    the result is the bytes, the flags written and the flags that did not
    fit. *)
Fixpoint appendProperties (ps : list EntityPropertyList) (e : EntityItem)
    (requested : EntityPropertyFlags) (room : nat)
  : list byte * EntityPropertyFlags * EntityPropertyFlags :=
  match ps with
  | [] => ([], 0, 0)
  | p :: ps' =>
      if getHasProperty requested p then
        let bytes := putValue (getProperty p e) in
        if (List.length bytes <=? room)%nat then
          let '(out, written, didntFit) :=
            appendProperties ps' e requested (room - List.length bytes) in
          (bytes ++ out, setHasProperty p written, didntFit)
        else ([], 0, Z.land requested (flagsOf ps))
      else appendProperties ps' e requested room
  end.

(** Modelled from the spec: the body of [appendEntityData], which the header
    declares and another file defines.  The entity's part of a packet is the
    flag set, the edit timestamp and the flagged values; the append state is
    "[NONE] (nothing fit, caller must omit this entity from the packet),
    [PARTIAL] (some but not all requested properties were written), or
    [COMPLETED]".  When no property is written nothing of the entity stays in
    the packet. *)
Definition appendEntityData (e : EntityItem) (byteBudget : nat)
    (requestedProperties : EntityPropertyFlags) : AppendResult :=
  let wanted := Z.land requestedProperties ALL_PROPERTIES in
  if (byteBudget <? FLAGS_BYTES + TIMESTAMP_BYTES)%nat then
    mkAppendResult [] 0 wanted NONE
  else
    let '(out, written, didntFit) :=
      appendProperties allProperties e requestedProperties
        (byteBudget - (FLAGS_BYTES + TIMESTAMP_BYTES)) in
    if written =? 0 then mkAppendResult [] 0 wanted NONE
    else
      mkAppendResult
        (le_split FLAGS_BYTES written ++ le_split TIMESTAMP_BYTES (_lastEdited e) ++ out)
        written didntFit
        (if didntFit =? 0 then COMPLETED else PARTIAL).

(** The reader: the bytes from the read pointer on, and how many of them the
    caller declared readable. *)
Record Cursor : Type := mkCursor {
  remaining : list byte;
  bytesLeft : nat
}.

Definition Reader (A : Type) : Type := Cursor -> option (A * Cursor).

Definition ret {A : Type} (a : A) : Reader A := fun c => Some (a, c).

Definition bind {A B : Type} (m : Reader A) (k : A -> Reader B) : Reader B :=
  fun c =>
    match m c with
    | Some (a, c') => k a c'
    | None => None
    end.

Notation "x <- m ;; k" := (bind m (fun x => k))
  (at level 61, m at next level, right associativity).

(** Reading [n] bytes fails when fewer than [n] are declared readable. *)
Definition readBytes (n : nat) : Reader (list byte) :=
  fun c =>
    if ((n <=? bytesLeft c) && (n <=? List.length (remaining c)))%nat then
      Some (firstn n (remaining c), mkCursor (skipn n (remaining c)) (bytesLeft c - n))
    else None.

Definition readLE (n : nat) : Reader Z :=
  bs <- readBytes n ;; ret (le_combine bs).

Definition readFloat : Reader float := readLE 4.

Definition readVec3 : Reader glm.vec3 :=
  a <- readFloat ;; b <- readFloat ;; c <- readFloat ;; ret (glm.mkvec3 a b c).

Definition readQuat : Reader glm.quat :=
  a <- readFloat ;; b <- readFloat ;; c <- readFloat ;; d <- readFloat ;;
  ret (glm.mkquat a b c d).

Definition readBool : Reader bool :=
  b <- readLE 1 ;; ret (negb (b =? 0)).

Definition readString : Reader QString :=
  n <- readLE 2 ;; bs <- readBytes (Z.to_nat n) ;; ret (string_of_list_byte bs).

Definition readValue (k : PropertyKind) : Reader PropertyValue :=
  match k with
  | KVec3 => v <- readVec3 ;; ret (VVec3 v)
  | KQuat => q <- readQuat ;; ret (VQuat q)
  | KFloat => f <- readFloat ;; ret (VFloat f)
  | KBool => b <- readBool ;; ret (VBool b)
  | KString => s <- readString ;; ret (VString s)
  end.

(** Modelled from the spec: the decoder reads "each flagged value in the same
    fixed priority order used by the encoder"; when [overwrite] is false
    "values are parsed (to keep the stream position correct) but discarded";
    when fewer bytes remain than a field needs "the read is aborted for that
    entity, consuming only what was validly parsed". *)
Fixpoint readProperties (ps : list EntityPropertyList) (flags : EntityPropertyFlags)
    (overwrite : bool) (c : Cursor) (e : EntityItem) : Cursor * EntityItem :=
  match ps with
  | [] => (c, e)
  | p :: ps' =>
      if getHasProperty flags p then
        match readValue (kindOf p) c with
        | Some (v, c') =>
            readProperties ps' flags overwrite c'
              (if overwrite then setProperty p v e else e)
        | None => (c, e)
        end
      else readProperties ps' flags overwrite c e
  end.

(** Modelled from the spec: the body of [readEntityDataFromBuffer], which the
    header declares and another file defines.  It "reads the property-flag
    bitset first"; with [overwriteLocalData] "an incoming edit is applied
    only if its carried edit-timestamp is >= the entity's current last-edited
    timestamp".  The result is [bytesConsumed] and the entity after the
    read. *)
Definition readEntityDataFromBuffer (data : list byte) (bytesLeftToRead : Z)
    (overwriteLocalData : bool) (e : EntityItem) : Z * EntityItem :=
  let c0 := mkCursor data (Z.to_nat bytesLeftToRead) in
  match readLE FLAGS_BYTES c0 with
  | None => (0, e)
  | Some (flags, c1) =>
      match readLE TIMESTAMP_BYTES c1 with
      | None => (Z.of_nat (bytesLeft c0 - bytesLeft c1), e)
      | Some (lastEdited, c2) =>
          let overwrite := overwriteLocalData && (_lastEdited e <=? lastEdited) in
          let '(c3, e') := readProperties allProperties flags overwrite c2 e in
          (Z.of_nat (bytesLeft c0 - bytesLeft c3),
           if overwrite then setLastEdited lastEdited e' else e')
      end
  end.

(** Modelled from the spec: a fresh record, one that no edit has reached
    yet; its last-edited time is zero, the other members are placeholders. *)
Definition zeroVec3 : glm.vec3 := glm.mkvec3 0 0 0.
Definition freshEntity : EntityItem :=
  mkEntityItem 0 0 0 true 0 0 0 0 0 0 0 zeroVec3 zeroVec3 (glm.mkquat 0 0 0 Float32.one)
    0 0 0 Float32.one zeroVec3 zeroVec3 0 0 EmptyString zeroVec3 zeroVec3 0 true false
    false false EmptyString 0 0 0.

(** The floats, strings and timestamp of an entity fit their wire width. *)
Definition wf_value (v : PropertyValue) : Prop :=
  match v with
  | VVec3 a => glm.wf_vec3 a
  | VQuat q => glm.wf_quat q
  | VFloat f => Float32.wf f
  | VBool _ => True
  | VString s => Z.of_nat (List.length (list_byte_of_string s)) < 65536
  end.

Definition wf_entity (e : EntityItem) : Prop :=
  0 <= _lastEdited e < 2 ^ 64 /\ forall p, wf_value (getProperty p e).

(** What a complete read of the flagged properties of [src] leaves in
    [dst]. *)
Fixpoint copyProperties (ps : list EntityPropertyList) (flags : EntityPropertyFlags)
    (src dst : EntityItem) : EntityItem :=
  match ps with
  | [] => dst
  | p :: ps' =>
      copyProperties ps' flags src
        (if getHasProperty flags p then setProperty p (getProperty p src) dst else dst)
  end.

(** ** Vocabulary of the statements *)

(** Every member but the three edit timestamps is the same in [e] and [e']. *)
Definition sameOutsideEditTimes (e e' : EntityItem) : Prop :=
  _type e' = _type e /\ _id e' = _id e /\ _creatorTokenID e' = _creatorTokenID e /\
  _newlyCreated e' = _newlyCreated e /\ _lastSimulated e' = _lastSimulated e /\
  _lastEditedFromRemote e' = _lastEditedFromRemote e /\
  _lastEditedFromRemoteInRemoteTime e' = _lastEditedFromRemoteInRemoteTime e /\
  _created e' = _created e /\ _position e' = _position e /\
  _dimensions e' = _dimensions e /\ _rotation e' = _rotation e /\
  _glowLevel e' = _glowLevel e /\ _localRenderAlpha e' = _localRenderAlpha e /\
  _density e' = _density e /\ _volumeMultiplier e' = _volumeMultiplier e /\
  _velocity e' = _velocity e /\ _gravity e' = _gravity e /\ _damping e' = _damping e /\
  _lifetime e' = _lifetime e /\ _script e' = _script e /\
  _registrationPoint e' = _registrationPoint e /\
  _angularVelocity e' = _angularVelocity e /\ _angularDamping e' = _angularDamping e /\
  _visible e' = _visible e /\ _ignoreForCollisions e' = _ignoreForCollisions e /\
  _collisionsWillMove e' = _collisionsWillMove e /\ _locked e' = _locked e /\
  _userData e' = _userData e /\ _physicsInfo e' = _physicsInfo e /\
  _dirtyFlags e' = _dirtyFlags e /\ _element e' = _element e.

(** The calls of the header that write a timestamp from their argument. *)
Inductive TimestampOp : Type :=
  | OpSetLastSimulated (now : Z)
  | OpSetLastEdited (lastEdited : Z)
  | OpUpdate (now : Z).

Definition stepTimestampOp (e : EntityItem) (op : TimestampOp) : EntityItem :=
  match op with
  | OpSetLastSimulated now => setLastSimulated now e
  | OpSetLastEdited lastEdited => setLastEdited lastEdited e
  | OpUpdate now => update now e
  end.

Definition runTimestampOps (ops : list TimestampOp) (e : EntityItem) : EntityItem :=
  fold_left stepTimestampOp ops e.

(** A float within the domain range [[0, 1]]. *)
Definition inUnitRange (a : float) : bool :=
  Float32.leb Float32.zero a && Float32.leb a Float32.one.

(** A coordinate after the clamp is within the domain range, unless the
    coordinate was not a number. *)
Definition clampedOrNaN (a : float) : bool :=
  Float32.isnan a || inUnitRange (glm.clampf a Float32.zero Float32.one).

(** The edit that encoding the requested properties of [src] within a byte
    budget puts on the wire. *)
Definition editOf (src : EntityItem) (requested : EntityPropertyFlags) (byteBudget : nat)
  : list byte :=
  bytesWritten (appendEntityData src byteBudget requested).

(** The highest-priority requested property. *)
Definition firstRequested (requested : EntityPropertyFlags) : option EntityPropertyList :=
  find (getHasProperty requested) allProperties.


(** A reader that, on the bytes [bs] followed by anything, yields [a] and
    stops right after [bs]. *)
Definition reads {A : Type} (m : Reader A) (bs : list byte) (a : A) : Prop :=
  forall tail n,
    (List.length bs <= n)%nat ->
    m (mkCursor (bs ++ tail) n) = Some (a, mkCursor tail (n - List.length bs)).

(** The bytes that the requested properties of an entity take on the wire,
    and the size of the entity's part of a packet that holds them all. *)
Fixpoint valuesSize (ps : list EntityPropertyList) (e : EntityItem)
    (requested : EntityPropertyFlags) : nat :=
  match ps with
  | [] => 0
  | p :: ps' =>
      (if getHasProperty requested p then List.length (putValue (getProperty p e)) else 0)
      + valuesSize ps' e requested
  end.

Definition encodedSize (e : EntityItem) (requested : EntityPropertyFlags) : nat :=
  FLAGS_BYTES + TIMESTAMP_BYTES + valuesSize allProperties e requested.

(** Applying an edit, the whole of it declared readable, with
    [overwriteLocalData] true. *)
Definition applyEdit (edit : list byte) (e : EntityItem) : EntityItem :=
  snd (readEntityDataFromBuffer edit (Z.of_nat (List.length edit)) true e).

(** Two cursors that hold the same bytes as far as they are declared
    readable. *)
Definition agree (c1 c2 : Cursor) : Prop :=
  bytesLeft c1 = bytesLeft c2
  /\ firstn (bytesLeft c1) (remaining c1) = firstn (bytesLeft c2) (remaining c2).





(** ** More of the header *)

(** [operator==] and [operator!=] on [glm::vec3]: every component compares
    equal, some component differs. *)
Definition eq_vec3 (a b : glm.vec3) : bool :=
  Float32.eqb (glm.x a) (glm.x b) && Float32.eqb (glm.y a) (glm.y b)
  && Float32.eqb (glm.z a) (glm.z b).

Definition ne_vec3 (a b : glm.vec3) : bool :=
  negb (Float32.eqb (glm.x a) (glm.x b)) || negb (Float32.eqb (glm.y a) (glm.y b))
  || negb (Float32.eqb (glm.z a) (glm.z b)).

Section HeaderZero.

(** The zero vector of the defaults, defined in another file of the
    repository. *)
Variable ENTITY_ITEM_ZERO_VEC3 : glm.vec3.

Definition hasVelocity (e : EntityItem) : bool :=
  ne_vec3 (_velocity e) ENTITY_ITEM_ZERO_VEC3.
Definition hasGravity (e : EntityItem) : bool :=
  ne_vec3 (_gravity e) ENTITY_ITEM_ZERO_VEC3.
Definition hasAngularVelocity (e : EntityItem) : bool :=
  ne_vec3 (_angularVelocity e) ENTITY_ITEM_ZERO_VEC3.

End HeaderZero.







(** Every member but the last-simulated, last-updated, last-edited and
    changed-on-server timestamps is the same in [e] and [e']. *)
Definition sameOutsideTimestamps (e e' : EntityItem) : Prop :=
  _type e' = _type e /\ _id e' = _id e /\ _creatorTokenID e' = _creatorTokenID e /\
  _newlyCreated e' = _newlyCreated e /\
  _lastEditedFromRemote e' = _lastEditedFromRemote e /\
  _lastEditedFromRemoteInRemoteTime e' = _lastEditedFromRemoteInRemoteTime e /\
  _created e' = _created e /\ _position e' = _position e /\
  _dimensions e' = _dimensions e /\ _rotation e' = _rotation e /\
  _glowLevel e' = _glowLevel e /\ _localRenderAlpha e' = _localRenderAlpha e /\
  _density e' = _density e /\ _volumeMultiplier e' = _volumeMultiplier e /\
  _velocity e' = _velocity e /\ _gravity e' = _gravity e /\ _damping e' = _damping e /\
  _lifetime e' = _lifetime e /\ _script e' = _script e /\
  _registrationPoint e' = _registrationPoint e /\
  _angularVelocity e' = _angularVelocity e /\ _angularDamping e' = _angularDamping e /\
  _visible e' = _visible e /\ _ignoreForCollisions e' = _ignoreForCollisions e /\
  _collisionsWillMove e' = _collisionsWillMove e /\ _locked e' = _locked e /\
  _userData e' = _userData e /\ _physicsInfo e' = _physicsInfo e /\
  _dirtyFlags e' = _dirtyFlags e /\ _element e' = _element e.

(** A float that is a zero of either sign; the unary minus on floats and on
    vectors; a float that is not below zero. *)
Definition iszero (a : float) : bool :=
  match Float32.to_spec a with S754_zero _ => true | _ => false end.

Definition negf (a : float) : float := Z.lxor a 0x80000000.

Definition negv (v : glm.vec3) : glm.vec3 :=
  glm.mkvec3 (negf (glm.x v)) (negf (glm.y v)) (negf (glm.z v)).

Definition nonNegativeOrNaN (given stored : float) : bool :=
  Float32.isnan given || Float32.leb Float32.zero stored.

Definition equalOrNaN (given a b : float) : bool :=
  Float32.isnan given || Float32.eqb a b.

(** A coordinate given above one is stored as [hi], one given below zero as
    [lo]. *)
Definition saturates (given stored lo hi : float) : Prop :=
  (Float32.ltb Float32.one given = true -> stored = hi)
  /\ (Float32.ltb given Float32.zero = true -> stored = lo).

(** ** interface/src/avatar/Avatar.cpp: showing the display name *)

Definition DISPLAYNAME_ALPHA : float := Float32.one.   (* 1.0f *)

(** The two members of [Avatar] that [setShowDisplayName] writes. *)
Record AvatarDisplayName : Type := mkAvatarDisplayName {
  _displayNameAlpha : float;
  _displayNameTargetAlpha : float
}.

(** [Avatar::setShowDisplayName].  Whether the menu option [NamesAboveHeads]
    is checked and whether the avatar is the user's own are read from
    elsewhere and are arguments here. *)
Definition setShowDisplayName (namesAboveHeads isMyAvatar showDisplayName : bool)
    (a : AvatarDisplayName) : AvatarDisplayName :=
  if negb namesAboveHeads then
    mkAvatarDisplayName Float32.zero (_displayNameTargetAlpha a)
  else
    let a1 :=
      if isMyAvatar then
        mkAvatarDisplayName (if showDisplayName then DISPLAYNAME_ALPHA else Float32.zero)
          (_displayNameTargetAlpha a)
      else a in
    mkAvatarDisplayName (_displayNameAlpha a1)
      (if showDisplayName then DISPLAYNAME_ALPHA else Float32.zero).

(** * Properties of the header's member functions *)

(** ** Floats *)

Module Float32Facts.

Lemma SFcompare_antisym (a b : spec_float) :
  SFcompare b a = option_map CompOpp (SFcompare a b).
Proof.
  destruct a as [s| s| |s m e], b as [s'| s'| |s' m' e']; simpl;
    try reflexivity;
    try (destruct s; reflexivity);
    try (destruct s'; reflexivity);
    try (destruct s, s'; reflexivity).
  destruct s, s'; simpl; try reflexivity;
    rewrite (Z.compare_antisym e e'); destruct (e ?= e') eqn:E; simpl;
    try reflexivity; f_equal.
  all: change PosDef.Pos.compare_cont with Pos.compare_cont;
    rewrite (Pos.compare_cont_antisym m m' Eq); reflexivity.
Qed.

(** When [a < b] fails and neither is a NaN, [b <= a]. *)
Lemma not_ltb_leb (a b : spec_float) :
  SFltb a b = false -> a <> S754_nan -> b <> S754_nan -> SFleb b a = true.
Proof.
  unfold SFltb, SFleb. intros Hlt Ha Hb.
  rewrite SFcompare_antisym.
  destruct (SFcompare a b) as [[ | | ]|] eqn:E; simpl; try reflexivity;
    try discriminate.
  exfalso. destruct a, b; simpl in E; try discriminate; congruence.
Qed.

Lemma isnan_false (a : float) : Float32.isnan a = false -> Float32.to_spec a <> S754_nan.
Proof. unfold Float32.isnan. intros H E. rewrite E in H. discriminate. Qed.

Lemma frac_of_abs (a : float) : Float32.frac_of (Float32.abs a) = Float32.frac_of a.
Proof.
  unfold Float32.frac_of, Float32.abs. now rewrite <- Z.land_assoc.
Qed.

Lemma expo_of_abs (a : float) : Float32.expo_of (Float32.abs a) = Float32.expo_of a.
Proof.
  unfold Float32.expo_of, Float32.abs.
  now rewrite Z.shiftr_land, <- Z.land_assoc.
Qed.

Lemma sign_of_abs (a : float) : Float32.sign_of (Float32.abs a) = false.
Proof.
  unfold Float32.sign_of, Float32.abs. rewrite Z.land_spec.
  apply andb_false_r.
Qed.

(** Clearing the sign bit is the absolute value of the number denoted. *)
Lemma to_spec_abs (a : float) :
  Float32.to_spec (Float32.abs a) = SFabs (Float32.to_spec a).
Proof.
  unfold Float32.to_spec.
  rewrite frac_of_abs, expo_of_abs, sign_of_abs.
  destruct (Float32.expo_of a =? 255).
  - now destruct (Float32.frac_of a =? 0).
  - destruct (Float32.expo_of a =? 0).
    + now destruct (Float32.frac_of a).
    + now destruct (Float32.frac_of a + 8388608).
Qed.

(** The clamp to [[0, 1]] of anything but a NaN lies in [[0, 1]]. *)
Lemma clampf_unit (a : float) : clampedOrNaN a = true.
Proof.
  unfold clampedOrNaN. destruct (Float32.isnan a) eqn:Hn; [reflexivity|].
  apply isnan_false in Hn. simpl.
  unfold glm.clampf, glm.maxf, glm.minf.
  destruct (Float32.ltb a Float32.zero) eqn:H0; [reflexivity|].
  destruct (Float32.ltb Float32.one a) eqn:H1; [reflexivity|].
  unfold inUnitRange, Float32.leb. unfold Float32.ltb in H0, H1.
  rewrite (not_ltb_leb _ _ H0 Hn) by discriminate.
  rewrite (not_ltb_leb _ _ H1) by (discriminate || assumption).
  reflexivity.
Qed.

End Float32Facts.

(** ** The timestamps *)

Lemma glm_max_spec (a b : Z) : glm.max a b = Z.max a b.
Proof. unfold glm.max. destruct (Z.ltb_spec a b); lia. Qed.

Lemma changedOnServer_step (e : EntityItem) (op : TimestampOp) :
  _changedOnServer e <= _changedOnServer (stepTimestampOp e op).
Proof.
  destruct op; simpl; try lia.
  rewrite glm_max_spec. lia.
Qed.

Lemma changedOnServer_run (ops : list TimestampOp) :
  forall e, _changedOnServer e <= _changedOnServer (runTimestampOps ops e).
Proof.
  unfold runTimestampOps.
  induction ops as [|op ops IH]; intros e; simpl; [lia|].
  etransitivity; [apply (changedOnServer_step e op)|apply IH].
Qed.

(** C10: for every timestamp [t], [setLastEdited t] sets the last-edited and
    the last-updated fields to [t] and the changed-on-server field to the
    maximum of [t] and its previous value, which therefore does not decrease;
    every other member of the entity is left as it was. *)
Theorem setLastEdited_spec (t : Z) (e : EntityItem) :
  _lastEdited (setLastEdited t e) = t
  /\ _lastUpdated (setLastEdited t e) = t
  /\ _changedOnServer (setLastEdited t e) = Z.max t (_changedOnServer e)
  /\ _changedOnServer e <= _changedOnServer (setLastEdited t e)
  /\ sameOutsideEditTimes e (setLastEdited t e).
Proof.
  repeat split; simpl; try reflexivity; rewrite glm_max_spec; lia.
Qed.

(** C6, as the claim states it, fails: a setter called with an earlier time
    leaves the field smaller than it was. *)
Lemma setLastSimulated_decreases :
  _lastSimulated (setLastSimulated 3 (setLastSimulated 5 freshEntity))
  < _lastSimulated (setLastSimulated 5 freshEntity).
Proof. reflexivity. Qed.

(** C6, amended: the changed-on-server timestamp never decreases across any
    sequence of [setLastSimulated], [setLastEdited] and [update] calls; the
    last-simulated, last-updated and last-edited timestamps take the value
    passed in, so that each is non-decreasing across a call exactly when the
    argument is not below its previous value. *)
Theorem timestamps_monotone_amended :
  (forall ops e, _changedOnServer e <= _changedOnServer (runTimestampOps ops e))
  /\ (forall now e,
         _lastSimulated (setLastSimulated now e) = now
         /\ (_lastSimulated e <= _lastSimulated (setLastSimulated now e)
             <-> _lastSimulated e <= now))
  /\ (forall now e,
         _lastUpdated (update now e) = now
         /\ (_lastUpdated e <= _lastUpdated (update now e) <-> _lastUpdated e <= now))
  /\ (forall t e,
         (_lastEdited e <= _lastEdited (setLastEdited t e) <-> _lastEdited e <= t)
         /\ (_lastUpdated e <= _lastUpdated (setLastEdited t e) <-> _lastUpdated e <= t)).
Proof.
  split; [intros ops e; apply changedOnServer_run|].
  repeat split; simpl; auto.
Qed.

(** ** Domain units *)

(** C7, as the claim states it, fails for the dimensions: a dimension of 2
    domain units is not clamped, what is converted to world units is 2 and
    not a value of [[0, 1]]; with a world scale of 16384 meters the dimension
    becomes 32768 meters, where the clamp would give 16384. *)
Lemma setDimensionsInDomainUnits_not_clamped :
  let two := 0x40000000 in
  let v := glm.mkvec3 two two two in
  let TREE_SCALE := 0x46800000 in
  glm.abs v = v
  /\ inUnitRange (glm.x (glm.abs v)) = false
  /\ glm.clamp v Float32.zero Float32.one
     = glm.mkvec3 Float32.one Float32.one Float32.one
  /\ _dimensions (setDimensionsInDomainUnits TREE_SCALE v freshEntity)
     = glm.mkvec3 0x47000000 0x47000000 0x47000000
  /\ glm.scale (glm.clamp v Float32.zero Float32.one) TREE_SCALE
     = glm.mkvec3 TREE_SCALE TREE_SCALE TREE_SCALE
  /\ _dimensions (setDimensionsInDomainUnits TREE_SCALE v freshEntity)
     <> glm.scale (glm.clamp v Float32.zero Float32.one) TREE_SCALE.
Proof. vm_compute. repeat split. discriminate. Qed.

(** C7, amended: [setPositionInDomainUnits] clamps each coordinate to
    [[0, 1]] before the conversion to world units, and the clamped coordinate
    lies in [[0, 1]] unless the coordinate is not a number;
    [setDimensionsInDomainUnits] takes the absolute value of each coordinate
    before the conversion, so that a negative dimension becomes positive, and
    does not clamp; both are total, no input is rejected. *)
Theorem domainUnits_amended (TREE_SCALE : float) (v : glm.vec3) (e : EntityItem) :
  _position (setPositionInDomainUnits TREE_SCALE v e)
  = glm.scale (glm.clamp v Float32.zero Float32.one) TREE_SCALE
  /\ clampedOrNaN (glm.x v) = true
  /\ clampedOrNaN (glm.y v) = true
  /\ clampedOrNaN (glm.z v) = true
  /\ _dimensions (setDimensionsInDomainUnits TREE_SCALE v e)
     = glm.scale (glm.abs v) TREE_SCALE
  /\ (forall c, Float32.sign_of (Float32.abs c) = false
                /\ Float32.to_spec (Float32.abs c) = SFabs (Float32.to_spec c)).
Proof.
  repeat split; try reflexivity; try apply Float32Facts.clampf_unit.
  - apply Float32Facts.sign_of_abs.
  - apply Float32Facts.to_spec_abs.
Qed.

(** ** Dirty flags *)





Lemma lor_bounded (n a b : Z) :
  0 < n -> 0 <= a < 2 ^ n -> 0 <= b < 2 ^ n -> 0 <= Z.lor a b < 2 ^ n.
Proof.
  intros Hn Ha Hb. split; [apply Z.lor_nonneg; lia|].
  destruct (Z.eq_dec (Z.lor a b) 0) as [->|Hnz]; [lia|].
  apply Z.log2_lt_pow2; [pose proof (Z.lor_nonneg a b); lia|].
  rewrite Z.log2_lor by lia.
  apply Z.max_lub_lt.
  - destruct (Z.eq_dec a 0) as [->|]; [simpl; lia|]. apply Z.log2_lt_pow2; lia.
  - destruct (Z.eq_dec b 0) as [->|]; [simpl; lia|]. apply Z.log2_lt_pow2; lia.
Qed.

(** The dirty flags stay within the default mask: every flag of
    [EntityDirtyFlags] lies below bit 16. *)
Lemma markDirty_bounded (flag : Z) (e : EntityItem) :
  0 <= flag < 2 ^ 16 -> 0 <= _dirtyFlags e < 2 ^ 16 ->
  0 <= _dirtyFlags (markDirty flag e) < 2 ^ 16.
Proof.
  intros Hflag He.
  change (_dirtyFlags (markDirty flag e)) with (Z.lor (_dirtyFlags e) flag).
  apply lor_bounded; [lia|assumption|assumption].
Qed.



(** ** Lifetime *)



(** * Properties of the property set *)

Lemma EntityPropertyList_eq_dec (p q : EntityPropertyList) : {p = q} + {p <> q}.
Proof. decide equality. Defined.

Lemma allProperties_complete (p : EntityPropertyList) : In p allProperties.
Proof. destruct p; simpl; tauto. Qed.

Lemma allProperties_NoDup : NoDup allProperties.
Proof.
  unfold allProperties.
  repeat (constructor; [simpl; intuition discriminate|]). constructor.
Qed.


Lemma kindOfValue_getProperty (p : EntityPropertyList) (e : EntityItem) :
  kindOfValue (getProperty p e) = kindOf p.
Proof. now destruct p. Qed.


Lemma getProperty_setProperty_same (p : EntityPropertyList) (v : PropertyValue)
    (e : EntityItem) :
  kindOfValue v = kindOf p -> getProperty p (setProperty p v e) = v.
Proof. destruct p, v; simpl; intros H; try discriminate H; reflexivity. Qed.

Lemma getProperty_setProperty_other (p q : EntityPropertyList) (v : PropertyValue)
    (e : EntityItem) :
  p <> q -> getProperty q (setProperty p v e) = getProperty q e.
Proof.
  intros Hpq. destruct p, v; simpl; try reflexivity;
    destruct q; try reflexivity; congruence.
Qed.





(** * Properties of the codec *)

(** ** Flag sets *)

Lemma propertyIndex_range (p : EntityPropertyList) : 0 <= propertyIndex p < 16.
Proof. destruct p; simpl; lia. Qed.

Lemma propertyIndex_inj (p q : EntityPropertyList) :
  propertyIndex p = propertyIndex q -> p = q.
Proof. destruct p, q; simpl; intros H; try reflexivity; discriminate H. Qed.

Lemma getHasProperty_setHasProperty (p q : EntityPropertyList) (flags : EntityPropertyFlags) :
  getHasProperty (setHasProperty p flags) q
  = if EntityPropertyList_eq_dec p q then true else getHasProperty flags q.
Proof.
  unfold getHasProperty, setHasProperty.
  pose proof (propertyIndex_range p). pose proof (propertyIndex_range q).
  rewrite Z.setbit_eqb by lia.
  destruct (EntityPropertyList_eq_dec p q) as [->|Hne].
  - now rewrite Z.eqb_refl.
  - destruct (Z.eqb_spec (propertyIndex p) (propertyIndex q)) as [E|_]; [|reflexivity].
    now apply propertyIndex_inj in E.
Qed.

Lemma getHasProperty_zero (p : EntityPropertyList) : getHasProperty 0 p = false.
Proof. apply Z.bits_0. Qed.

Lemma setHasProperty_bounded (p : EntityPropertyList) (flags : EntityPropertyFlags) :
  0 <= flags < 2 ^ 16 -> 0 <= setHasProperty p flags < 2 ^ 16.
Proof.
  intros H. unfold setHasProperty, Z.setbit.
  apply lor_bounded; [lia|exact H|].
  rewrite Z.shiftl_1_l. pose proof (propertyIndex_range p).
  split; [apply Z.pow_nonneg; lia|apply Z.pow_lt_mono_r; lia].
Qed.

Lemma setHasProperty_nonzero (p : EntityPropertyList) (flags : EntityPropertyFlags) :
  setHasProperty p flags <> 0.
Proof.
  intros E.
  assert (H : getHasProperty (setHasProperty p flags) p = true).
  { rewrite getHasProperty_setHasProperty.
    now destruct (EntityPropertyList_eq_dec p p). }
  rewrite E, getHasProperty_zero in H. discriminate.
Qed.

(** ** The reader *)

Lemma firstn_length_app {A : Type} (l tail : list A) :
  firstn (List.length l) (l ++ tail) = l.
Proof. induction l; simpl; [reflexivity|now f_equal]. Qed.

Lemma skipn_length_app {A : Type} (l tail : list A) :
  skipn (List.length l) (l ++ tail) = tail.
Proof. induction l; simpl; auto. Qed.

Lemma reads_readBytes (bs : list byte) : reads (readBytes (List.length bs)) bs bs.
Proof.
  intros tail n Hn. unfold readBytes. simpl.
  rewrite length_app.
  replace (List.length bs <=? n)%nat with true by (symmetry; apply Nat.leb_le; lia).
  replace (List.length bs <=? List.length bs + List.length tail)%nat with true
    by (symmetry; apply Nat.leb_le; lia).
  simpl. now rewrite firstn_length_app, skipn_length_app.
Qed.

Lemma reads_ret {A : Type} (a : A) : reads (ret a) [] a.
Proof. intros tail n _. unfold ret. simpl. now rewrite Nat.sub_0_r. Qed.

Lemma reads_bind {A B : Type} (m : Reader A) (k : A -> Reader B)
    (bs bs' : list byte) (a : A) (b : B) :
  reads m bs a -> reads (k a) bs' b -> reads (bind m k) (bs ++ bs') b.
Proof.
  intros Hm Hk tail n Hn. rewrite length_app in Hn.
  unfold bind. rewrite <- app_assoc, Hm by lia.
  rewrite Hk by lia. rewrite length_app. do 3 f_equal. lia.
Qed.

Lemma reads_readLE (k : nat) (w : Z) :
  0 <= w < 2 ^ (Z.of_nat k * 8) -> reads (readLE k) (le_split k w) w.
Proof.
  intros Hw. unfold readLE.
  rewrite <- (app_nil_r (le_split k w)).
  apply reads_bind with (a := le_split k w).
  - rewrite <- (length_le_split k w) at 1. apply reads_readBytes.
  - rewrite le_combine_split, Z.mod_small by exact Hw. apply reads_ret.
Qed.

Lemma reads_readFloat (a : float) : Float32.wf a -> reads readFloat (putFloat a) a.
Proof. intros H. apply reads_readLE. exact H. Qed.

Lemma reads_readVec3 (v : glm.vec3) : glm.wf_vec3 v -> reads readVec3 (putVec3 v) v.
Proof.
  destruct v as [a b c]. intros (Ha & Hb & Hc).
  unfold readVec3, putVec3. cbn [glm.x glm.y glm.z] in *.
  apply reads_bind with (a := a); [now apply reads_readFloat|].
  apply reads_bind with (a := b); [now apply reads_readFloat|].
  rewrite <- (app_nil_r (putFloat c)).
  apply reads_bind with (a := c); [now apply reads_readFloat|].
  apply reads_ret.
Qed.

Lemma reads_readQuat (q : glm.quat) : glm.wf_quat q -> reads readQuat (putQuat q) q.
Proof.
  destruct q as [a b c d]. intros (Ha & Hb & Hc & Hd).
  unfold readQuat, putQuat. cbn [glm.qx glm.qy glm.qz glm.qw] in *.
  apply reads_bind with (a := a); [now apply reads_readFloat|].
  apply reads_bind with (a := b); [now apply reads_readFloat|].
  apply reads_bind with (a := c); [now apply reads_readFloat|].
  rewrite <- (app_nil_r (putFloat d)).
  apply reads_bind with (a := d); [now apply reads_readFloat|].
  apply reads_ret.
Qed.

Lemma reads_readBool (b : bool) : reads readBool (putBool b) b.
Proof.
  unfold readBool, putBool.
  rewrite <- (app_nil_r (le_split 1 _)).
  apply reads_bind with (a := if b then 1 else 0).
  - apply reads_readLE. destruct b; simpl; lia.
  - destruct b; apply reads_ret.
Qed.

Lemma reads_readString (s : QString) :
  Z.of_nat (List.length (list_byte_of_string s)) < 65536 ->
  reads readString (putString s) s.
Proof.
  intros Hs. unfold readString, putString.
  apply reads_bind with (a := Z.of_nat (List.length (list_byte_of_string s))).
  - apply reads_readLE. simpl. lia.
  - rewrite Nat2Z.id.
    rewrite <- (app_nil_r (list_byte_of_string s)) at 2.
    apply reads_bind with (a := list_byte_of_string s); [apply reads_readBytes|].
    rewrite string_of_list_byte_of_string. apply reads_ret.
Qed.

(** Every value that fits its wire width is read back from its bytes. *)
Lemma reads_readValue (v : PropertyValue) :
  wf_value v -> reads (readValue (kindOfValue v)) (putValue v) v.
Proof.
  destruct v as [a|q|f|b|s]; simpl; intros Hv;
    match goal with
    | |- reads _ ?bs _ => rewrite <- (app_nil_r bs)
    end;
    eapply reads_bind; try apply reads_ret.
  - now apply reads_readVec3.
  - now apply reads_readQuat.
  - now apply reads_readFloat.
  - apply reads_readBool.
  - now apply reads_readString.
Qed.

(** ** The encoder *)

Lemma appendProperties_written (e : EntityItem) (requested : EntityPropertyFlags)
    (ps : list EntityPropertyList) :
  forall room out written didntFit,
    appendProperties ps e requested room = (out, written, didntFit) ->
    (List.length out <= room)%nat
    /\ 0 <= written < 2 ^ 16
    /\ (forall q, getHasProperty written q = true ->
                  In q ps /\ getHasProperty requested q = true).
Proof.
  induction ps as [|p ps IH]; intros room out written didntFit; simpl.
  - intros H. inversion H; subst. simpl. split; [lia|]. split; [lia|].
    intros q Hq. rewrite getHasProperty_zero in Hq. discriminate.
  - destruct (getHasProperty requested p) eqn:Hreq.
    + destruct (List.length (putValue (getProperty p e)) <=? room)%nat eqn:Hfit.
      * destruct (appendProperties ps e requested _) as [[out' w'] df'] eqn:E.
        intros H. inversion H; subst. clear H.
        apply Nat.leb_le in Hfit.
        destruct (IH _ _ _ _ E) as (Hlen & Hw & Hin).
        split; [rewrite length_app; lia|].
        split; [now apply setHasProperty_bounded|].
        intros q. rewrite getHasProperty_setHasProperty.
        destruct (EntityPropertyList_eq_dec p q) as [<-|Hne]; [auto|].
        intros Hq. destruct (Hin q Hq). auto.
      * intros H. inversion H; subst. simpl. split; [lia|]. split; [lia|].
        intros q Hq. rewrite getHasProperty_zero in Hq. discriminate.
    + intros H. destruct (IH _ _ _ _ H) as (Hlen & Hw & Hin).
      split; [exact Hlen|]. split; [exact Hw|].
      intros q Hq. destruct (Hin q Hq). auto.
Qed.

(** With room for every requested value, every requested property of the
    list is written and none is left over. *)
Lemma appendProperties_enough (e : EntityItem) (requested : EntityPropertyFlags)
    (ps : list EntityPropertyList) :
  NoDup ps ->
  forall room,
    (valuesSize ps e requested <= room)%nat ->
    exists out written,
      appendProperties ps e requested room = (out, written, 0)
      /\ forall q, In q ps -> getHasProperty written q = getHasProperty requested q.
Proof.
  induction 1 as [|p ps Hp Hnd IH]; intros room Hroom; simpl in *.
  - exists [], 0. split; [reflexivity|]. contradiction.
  - destruct (getHasProperty requested p) eqn:Hreq.
    + replace (List.length (putValue (getProperty p e)) <=? room)%nat with true
        by (symmetry; apply Nat.leb_le; lia).
      destruct (IH (room - List.length (putValue (getProperty p e)))%nat)
        as (out & w & E & Hw); [lia|].
      rewrite E. eexists _, _. split; [reflexivity|].
      intros q Hq. rewrite getHasProperty_setHasProperty.
      destruct (EntityPropertyList_eq_dec p q) as [<-|Hne]; [now rewrite Hreq|].
      destruct Hq as [->|Hq]; [contradiction|]. now apply Hw.
    + destruct (IH room) as (out & w & E & Hw); [lia|].
      exists out, w. split; [exact E|].
      intros q [<-|Hq]; [|now apply Hw].
      rewrite Hreq.
      destruct (getHasProperty w p) eqn:Hwp; [|reflexivity].
      destruct (appendProperties_written _ _ _ _ _ _ _ E) as (_ & _ & Hin).
      destruct (Hin p Hwp). contradiction.
Qed.

(** When the highest-priority requested property of the list does not fit,
    nothing is written. *)
Lemma appendProperties_first_too_big (e : EntityItem) (requested : EntityPropertyFlags)
    (ps : list EntityPropertyList) (p : EntityPropertyList) (room : nat) :
  find (getHasProperty requested) ps = Some p ->
  (room < List.length (putValue (getProperty p e)))%nat ->
  fst (appendProperties ps e requested room) = ([], 0).
Proof.
  induction ps as [|q ps IH]; simpl; [discriminate|].
  destruct (getHasProperty requested q) eqn:Hreq.
  - intros H Hroom. inversion H; subst.
    replace (List.length (putValue (getProperty p e)) <=? room)%nat with false
      by (symmetry; apply Nat.leb_gt; lia).
    reflexivity.
  - exact IH.
Qed.

Lemma appendEntityData_length (e : EntityItem) (byteBudget : nat)
    (requested : EntityPropertyFlags) :
  (List.length (bytesWritten (appendEntityData e byteBudget requested)) <= byteBudget)%nat.
Proof.
  unfold appendEntityData.
  destruct (byteBudget <? FLAGS_BYTES + TIMESTAMP_BYTES)%nat eqn:Hb; [simpl; lia|].
  apply Nat.ltb_ge in Hb.
  destruct (appendProperties allProperties e requested _) as [[out w] df] eqn:E.
  destruct (w =? 0); [simpl; lia|].
  cbn [bytesWritten]. rewrite !length_app, !length_le_split.
  destruct (appendProperties_written _ _ _ _ _ _ _ E) as (Hlen & _). lia.
Qed.

Lemma appendEntityData_NONE (e : EntityItem) (byteBudget : nat)
    (requested : EntityPropertyFlags) :
  appendState (appendEntityData e byteBudget requested) = NONE ->
  bytesWritten (appendEntityData e byteBudget requested) = [].
Proof.
  unfold appendEntityData.
  destruct (byteBudget <? FLAGS_BYTES + TIMESTAMP_BYTES)%nat; [reflexivity|].
  destruct (appendProperties allProperties e requested _) as [[out w] df].
  destruct (w =? 0); [reflexivity|].
  cbn [appendState]. destruct (df =? 0); discriminate.
Qed.

(** C3: for every entity and every byte budget [B], [appendEntityData]
    writes at most [B] bytes; and when [B] is smaller than the encoding of
    the highest-priority requested property, the append state is [NONE] and
    no byte is written.  An append state [NONE] always comes with no byte
    written. *)
Theorem appendEntityData_budget (e : EntityItem) (B : nat)
    (requested : EntityPropertyFlags) :
  (List.length (bytesWritten (appendEntityData e B requested)) <= B)%nat
  /\ (forall p,
         firstRequested requested = Some p ->
         (B < List.length (putValue (getProperty p e)))%nat ->
         appendState (appendEntityData e B requested) = NONE
         /\ bytesWritten (appendEntityData e B requested) = [])
  /\ (appendState (appendEntityData e B requested) = NONE ->
      bytesWritten (appendEntityData e B requested) = []).
Proof.
  split; [apply appendEntityData_length|].
  split; [|apply appendEntityData_NONE].
  intros p Hp HB.
  assert (Hs : appendState (appendEntityData e B requested) = NONE).
  { unfold appendEntityData.
    destruct (B <? FLAGS_BYTES + TIMESTAMP_BYTES)%nat; [reflexivity|].
    assert (H : fst (appendProperties allProperties e requested
                       (B - (FLAGS_BYTES + TIMESTAMP_BYTES))) = ([], 0))
      by (apply (appendProperties_first_too_big _ _ _ p); [exact Hp|lia]).
    destruct (appendProperties allProperties e requested _) as [[out w] df].
    simpl in H. injection H as _ ->. reflexivity. }
  split; [exact Hs|now apply appendEntityData_NONE].
Qed.

Lemma appendEntityData_budget_witness :
  let e := with_script "hello"%string freshEntity in
  firstRequested ALL_PROPERTIES = Some PROP_POSITION
  /\ List.length (putValue (getProperty PROP_POSITION e)) = 12%nat
  /\ appendState (appendEntityData e 11 ALL_PROPERTIES) = NONE
  /\ bytesWritten (appendEntityData e 11 ALL_PROPERTIES) = []
  /\ (List.length (bytesWritten (appendEntityData e 40 ALL_PROPERTIES)) <= 40)%nat.
Proof.
  intros e. split; [reflexivity|]. split; [reflexivity|].
  destruct (appendEntityData_budget e 11 ALL_PROPERTIES) as (_ & H & _).
  destruct (H PROP_POSITION eq_refl) as (H1 & H2); [simpl; lia|].
  split; [exact H1|]. split; [exact H2|].
  apply (appendEntityData_budget e 40 ALL_PROPERTIES).
Defined.

(** ** Reading what the encoder wrote *)

Lemma readProperties_skip (ps : list EntityPropertyList) (flags : EntityPropertyFlags)
    (overwrite : bool) (c : Cursor) (e : EntityItem) :
  (forall p, In p ps -> getHasProperty flags p = false) ->
  readProperties ps flags overwrite c e = (c, e).
Proof.
  induction ps as [|p ps IH]; simpl; intros H; [reflexivity|].
  rewrite (H p) by auto. apply IH. auto.
Qed.

Lemma copyProperties_skip (ps : list EntityPropertyList) (flags : EntityPropertyFlags)
    (src dst : EntityItem) :
  (forall p, In p ps -> getHasProperty flags p = false) ->
  copyProperties ps flags src dst = dst.
Proof.
  induction ps as [|p ps IH]; simpl; intros H; [reflexivity|].
  rewrite (H p) by auto. apply IH. auto.
Qed.

Lemma getProperty_copyProperties (p : EntityPropertyList) (flags : EntityPropertyFlags)
    (src : EntityItem) (ps : list EntityPropertyList) :
  forall dst,
    getProperty p (copyProperties ps flags src dst)
    = if in_dec EntityPropertyList_eq_dec p ps
      then (if getHasProperty flags p then getProperty p src else getProperty p dst)
      else getProperty p dst.
Proof.
  induction ps as [|q ps IH]; intros dst; [reflexivity|].
  cbn [copyProperties]. rewrite IH.
  assert (Hq : getProperty p
                 (if getHasProperty flags q
                  then setProperty q (getProperty q src) dst else dst)
               = if EntityPropertyList_eq_dec q p
                 then (if getHasProperty flags p
                       then getProperty p src else getProperty p dst)
                 else getProperty p dst).
  { destruct (EntityPropertyList_eq_dec q p) as [->|Hne].
    - destruct (getHasProperty flags p); [|reflexivity].
      apply getProperty_setProperty_same, kindOfValue_getProperty.
    - destruct (getHasProperty flags q); [|reflexivity].
      now apply getProperty_setProperty_other. }
  rewrite Hq.
  destruct (in_dec EntityPropertyList_eq_dec p ps) as [Hin|Hin];
    destruct (in_dec EntityPropertyList_eq_dec p (q :: ps)) as [Hin'|Hin'];
    destruct (EntityPropertyList_eq_dec q p) as [E|E];
    try reflexivity; simpl in Hin'; try tauto;
    destruct (getHasProperty flags p); reflexivity.
Qed.

Lemma lastEdited_setProperty (p : EntityPropertyList) (v : PropertyValue)
    (e : EntityItem) :
  _lastEdited (setProperty p v e) = _lastEdited e.
Proof. destruct p, v; reflexivity. Qed.

Lemma lastEdited_copyProperties (flags : EntityPropertyFlags) (src : EntityItem)
    (ps : list EntityPropertyList) :
  forall dst, _lastEdited (copyProperties ps flags src dst) = _lastEdited dst.
Proof.
  induction ps as [|q ps IH]; intros dst; [reflexivity|].
  cbn [copyProperties]. rewrite IH.
  destruct (getHasProperty flags q); [apply lastEdited_setProperty|reflexivity].
Qed.

Lemma getProperty_setLastEdited (p : EntityPropertyList) (t : Z) (e : EntityItem) :
  getProperty p (setLastEdited t e) = getProperty p e.
Proof. destruct p; reflexivity. Qed.

(** The reader walks back over what the encoder's walk wrote. *)
Lemma readProperties_appendProperties (src : EntityItem)
    (requested : EntityPropertyFlags) (ps : list EntityPropertyList) :
  NoDup ps ->
  (forall p, wf_value (getProperty p src)) ->
  forall room out written didntFit,
    appendProperties ps src requested room = (out, written, didntFit) ->
    forall flags,
      (forall p, In p ps -> getHasProperty flags p = getHasProperty written p) ->
      forall overwrite tail n dst,
        readProperties ps flags overwrite (mkCursor (out ++ tail) (List.length out + n)) dst
        = (mkCursor tail n, if overwrite then copyProperties ps flags src dst else dst).
Proof.
  intros Hnd Hwf. induction Hnd as [|p ps Hp Hnd IH];
    intros room out written didntFit Happ flags Hflags overwrite tail n dst.
  - simpl in Happ. inversion Happ; subst. simpl. now destruct overwrite.
  - cbn [appendProperties] in Happ.
    destruct (getHasProperty requested p) eqn:Hreq.
    + destruct (List.length (putValue (getProperty p src)) <=? room)%nat eqn:Hfit.
      * destruct (appendProperties ps src requested _) as [[out' w'] df'] eqn:E.
        inversion Happ; subst; clear Happ.
        assert (Hfp : getHasProperty flags p = true).
        { rewrite Hflags by (left; reflexivity).
          rewrite getHasProperty_setHasProperty.
          now destruct (EntityPropertyList_eq_dec p p). }
        cbn [readProperties copyProperties]. rewrite Hfp.
        rewrite <- app_assoc, <- (kindOfValue_getProperty p src).
        rewrite (reads_readValue _ (Hwf p)) by (rewrite length_app; lia).
        replace (List.length (putValue (getProperty p src) ++ out') + n
                 - List.length (putValue (getProperty p src)))%nat
          with (List.length out' + n)%nat by (rewrite length_app; lia).
        rewrite (IH _ _ _ _ E).
        -- now destruct overwrite.
        -- intros q Hq. rewrite Hflags by (right; exact Hq).
           rewrite getHasProperty_setHasProperty.
           destruct (EntityPropertyList_eq_dec p q) as [->|]; [contradiction|reflexivity].
      * inversion Happ; subst; clear Happ.
        assert (Hnone : forall q, In q (p :: ps) -> getHasProperty flags q = false).
        { intros q Hq. rewrite (Hflags q Hq). apply getHasProperty_zero. }
        rewrite readProperties_skip, copyProperties_skip by exact Hnone.
        now destruct overwrite.
    + assert (Hfp : getHasProperty flags p = false).
      { rewrite Hflags by (left; reflexivity).
        destruct (getHasProperty written p) eqn:Hwp; [|reflexivity].
        destruct (appendProperties_written _ _ _ _ _ _ _ Happ) as (_ & _ & Hin).
        destruct (Hin p Hwp). contradiction. }
      cbn [readProperties copyProperties]. rewrite Hfp.
      apply (IH _ _ _ _ Happ). intros q Hq. apply Hflags. now right.
Qed.

(** Reading the entity's part of a packet that [appendEntityData] wrote,
    whatever follows it in the packet: all of it is consumed and, when the
    edit is not older than the receiving entity, the flagged properties and
    the edit time are those of the sender. *)
Lemma readEntityDataFromBuffer_appendEntityData (src dst : EntityItem)
    (requested : EntityPropertyFlags) (byteBudget : nat) (tail : list byte)
    (extra : nat) (overwriteLocalData : bool) :
  wf_entity src ->
  appendState (appendEntityData src byteBudget requested) <> NONE ->
  readEntityDataFromBuffer
    (bytesWritten (appendEntityData src byteBudget requested) ++ tail)
    (Z.of_nat (List.length (bytesWritten (appendEntityData src byteBudget requested))
               + extra))
    overwriteLocalData dst
  = (Z.of_nat (List.length (bytesWritten (appendEntityData src byteBudget requested))),
     if overwriteLocalData && (_lastEdited dst <=? _lastEdited src)
     then setLastEdited (_lastEdited src)
            (copyProperties allProperties
               (propertyFlags (appendEntityData src byteBudget requested)) src dst)
     else dst).
Proof.
  intros [Ht Hwf] Hstate. unfold appendEntityData in *.
  destruct (byteBudget <? FLAGS_BYTES + TIMESTAMP_BYTES)%nat; [now elim Hstate|].
  destruct (appendProperties allProperties src requested _) as [[out w] df] eqn:E.
  destruct (w =? 0); [now elim Hstate|]. clear Hstate.
  cbn [bytesWritten propertyFlags].
  destruct (appendProperties_written _ _ _ _ _ _ _ E) as (_ & Hw & _).
  unfold readEntityDataFromBuffer. rewrite Nat2Z.id.
  rewrite <- !app_assoc, !length_app, !length_le_split.
  cbn [bytesLeft].
  assert (Hw' : 0 <= w < 2 ^ (Z.of_nat FLAGS_BYTES * 8)) by exact Hw.
  assert (Ht' : 0 <= _lastEdited src < 2 ^ (Z.of_nat TIMESTAMP_BYTES * 8)) by exact Ht.
  rewrite (reads_readLE _ _ Hw') by (rewrite length_le_split; lia).
  rewrite (reads_readLE _ _ Ht') by (rewrite !length_le_split; lia).
  rewrite !length_le_split. cbn [bytesLeft].
  replace (FLAGS_BYTES + (TIMESTAMP_BYTES + List.length out) + extra
           - FLAGS_BYTES - TIMESTAMP_BYTES)%nat
    with (List.length out + extra)%nat by lia.
  rewrite (readProperties_appendProperties src requested allProperties
             allProperties_NoDup Hwf _ _ _ _ E w (fun _ _ => eq_refl)).
  cbn [bytesLeft]. f_equal; [f_equal; lia|].
  now destruct (overwriteLocalData && (_lastEdited dst <=? _lastEdited src)).
Qed.

Lemma getHasProperty_ALL (p : EntityPropertyList) :
  getHasProperty ALL_PROPERTIES p = true.
Proof. destruct p; reflexivity. Qed.

(** With a budget that holds the whole encoding, every requested property is
    flagged and the append state is [COMPLETED]. *)
Lemma appendEntityData_enough (src : EntityItem) (requested : EntityPropertyFlags)
    (byteBudget : nat) (p : EntityPropertyList) :
  (encodedSize src requested <= byteBudget)%nat ->
  getHasProperty requested p = true ->
  appendState (appendEntityData src byteBudget requested) = COMPLETED
  /\ forall q,
       getHasProperty (propertyFlags (appendEntityData src byteBudget requested)) q
       = getHasProperty requested q.
Proof.
  unfold encodedSize, appendEntityData. intros Hb Hp.
  replace (byteBudget <? FLAGS_BYTES + TIMESTAMP_BYTES)%nat with false
    by (symmetry; apply Nat.ltb_ge; lia).
  destruct (appendProperties_enough src requested allProperties allProperties_NoDup
              (byteBudget - (FLAGS_BYTES + TIMESTAMP_BYTES))%nat)
    as (out & w & E & Hw); [lia|].
  rewrite E.
  destruct (Z.eqb_spec w 0) as [->|Hnz].
  - rewrite <- (Hw p (allProperties_complete p)), getHasProperty_zero in Hp.
    discriminate.
  - cbn [appendState propertyFlags]. split; [reflexivity|].
    intros q. apply Hw, allProperties_complete.
Qed.

(** What applying an edit does, the edit being the complete encoding of the
    requested properties of [A]. *)
Lemma applyEdit_editOf (A x : EntityItem) (requested : EntityPropertyFlags)
    (byteBudget : nat) (p : EntityPropertyList) :
  wf_entity A ->
  (encodedSize A requested <= byteBudget)%nat ->
  getHasProperty requested p = true ->
  applyEdit (editOf A requested byteBudget) x
  = if _lastEdited x <=? _lastEdited A
    then setLastEdited (_lastEdited A)
           (copyProperties allProperties
              (propertyFlags (appendEntityData A byteBudget requested)) A x)
    else x.
Proof.
  intros HA Hb Hp.
  destruct (appendEntityData_enough A requested byteBudget p Hb Hp) as (Hs & _).
  assert (Hne : appendState (appendEntityData A byteBudget requested) <> NONE)
    by (rewrite Hs; discriminate).
  pose proof (readEntityDataFromBuffer_appendEntityData A x requested byteBudget []
                0 true HA Hne) as H.
  rewrite app_nil_r, Nat.add_0_r in H.
  unfold applyEdit, editOf. rewrite H. reflexivity.
Qed.

Lemma applyEdit_newer (A x : EntityItem) (requested : EntityPropertyFlags)
    (byteBudget : nat) (p : EntityPropertyList) :
  wf_entity A ->
  (encodedSize A requested <= byteBudget)%nat ->
  getHasProperty requested p = true ->
  _lastEdited x <= _lastEdited A ->
  getProperty p (applyEdit (editOf A requested byteBudget) x) = getProperty p A
  /\ _lastEdited (applyEdit (editOf A requested byteBudget) x) = _lastEdited A.
Proof.
  intros HA Hb Hp Hx.
  rewrite (applyEdit_editOf A x requested byteBudget p HA Hb Hp).
  replace (_lastEdited x <=? _lastEdited A) with true by (symmetry; now apply Z.leb_le).
  split; [|reflexivity].
  rewrite getProperty_setLastEdited, getProperty_copyProperties.
  destruct (in_dec EntityPropertyList_eq_dec p allProperties) as [_|Hn];
    [|elim Hn; apply allProperties_complete].
  destruct (appendEntityData_enough A requested byteBudget p Hb Hp) as (_ & Hf).
  now rewrite Hf, Hp.
Qed.

Lemma applyEdit_older (A x : EntityItem) (requested : EntityPropertyFlags)
    (byteBudget : nat) (p : EntityPropertyList) :
  wf_entity A ->
  (encodedSize A requested <= byteBudget)%nat ->
  getHasProperty requested p = true ->
  _lastEdited A < _lastEdited x ->
  applyEdit (editOf A requested byteBudget) x = x.
Proof.
  intros HA Hb Hp Hx.
  rewrite (applyEdit_editOf A x requested byteBudget p HA Hb Hp).
  replace (_lastEdited x <=? _lastEdited A) with false by (symmetry; now apply Z.leb_gt).
  reflexivity.
Qed.

(** C1: for every entity [P] whose values fit their wire width, encoding all
    its properties with a budget that holds them all is [COMPLETED], and
    reading the bytes with [overwriteLocalData] true into a fresh record
    consumes them all and yields a record whose every property is that of
    [P]: the bit patterns of the floats are the same, so that vectors and
    quaternions agree within any tolerance. *)
Theorem encode_decode_roundtrip (P : EntityItem) (byteBudget : nat)
    (HP : wf_entity P)
    (Hbudget : (encodedSize P ALL_PROPERTIES <= byteBudget)%nat) :
  appendState (appendEntityData P byteBudget ALL_PROPERTIES) = COMPLETED
  /\ fst (readEntityDataFromBuffer (editOf P ALL_PROPERTIES byteBudget)
            (Z.of_nat (List.length (editOf P ALL_PROPERTIES byteBudget))) true
            freshEntity)
     = Z.of_nat (List.length (editOf P ALL_PROPERTIES byteBudget))
  /\ forall p,
       getProperty p
         (snd (readEntityDataFromBuffer (editOf P ALL_PROPERTIES byteBudget)
                 (Z.of_nat (List.length (editOf P ALL_PROPERTIES byteBudget))) true
                 freshEntity))
       = getProperty p P.
Proof.
  pose proof (getHasProperty_ALL PROP_POSITION) as Hpos.
  destruct (appendEntityData_enough P ALL_PROPERTIES byteBudget PROP_POSITION
              Hbudget Hpos) as (Hs & _).
  split; [exact Hs|]. split.
  - assert (Hne : appendState (appendEntityData P byteBudget ALL_PROPERTIES) <> NONE)
      by (rewrite Hs; discriminate).
    pose proof (readEntityDataFromBuffer_appendEntityData P freshEntity ALL_PROPERTIES
                  byteBudget [] 0 true HP Hne) as H.
    rewrite app_nil_r, Nat.add_0_r in H.
    unfold editOf. now rewrite H.
  - intros p.
    apply (applyEdit_newer P freshEntity ALL_PROPERTIES byteBudget p HP Hbudget
             (getHasProperty_ALL p)).
    destruct HP as [Ht _]. simpl. lia.
Qed.

(** C2: for every field [p] and every pair of edits, [A] with timestamp [t1]
    and [B] with timestamp [t2 < t1], both carrying [p], applied with
    [overwriteLocalData] true to an entity that [A] is not older than:
    applying [A] then [B] leaves the field at [A]'s value, and so does
    applying [B] then [A].  An edit is applied exactly when its timestamp is
    not below the entity's last-edited timestamp, ties included; an older
    edit leaves the entity as it was. *)
Theorem lastWriterWins (A B e : EntityItem) (requestedA requestedB : EntityPropertyFlags)
    (budgetA budgetB : nat) (p : EntityPropertyList)
    (HA : wf_entity A) (HB : wf_entity B)
    (HbA : (encodedSize A requestedA <= budgetA)%nat)
    (HbB : (encodedSize B requestedB <= budgetB)%nat)
    (HpA : getHasProperty requestedA p = true)
    (HpB : getHasProperty requestedB p = true)
    (Hlt : _lastEdited B < _lastEdited A)
    (He : _lastEdited e <= _lastEdited A) :
  getProperty p
    (applyEdit (editOf B requestedB budgetB) (applyEdit (editOf A requestedA budgetA) e))
  = getProperty p A
  /\ getProperty p
       (applyEdit (editOf A requestedA budgetA) (applyEdit (editOf B requestedB budgetB) e))
     = getProperty p A
  /\ (forall x, _lastEdited x <= _lastEdited A ->
                getProperty p (applyEdit (editOf A requestedA budgetA) x)
                = getProperty p A)
  /\ (forall x, _lastEdited A < _lastEdited x ->
                applyEdit (editOf A requestedA budgetA) x = x).
Proof.
  pose proof (fun x => applyEdit_newer A x requestedA budgetA p HA HbA HpA) as HA1.
  pose proof (fun x => applyEdit_older A x requestedA budgetA p HA HbA HpA) as HA2.
  pose proof (fun x => applyEdit_newer B x requestedB budgetB p HB HbB HpB) as HB1.
  pose proof (fun x => applyEdit_older B x requestedB budgetB p HB HbB HpB) as HB2.
  split; [|split; [|split]].
  - destruct (HA1 e He) as [Hv Ht].
    rewrite HB2 by lia. exact Hv.
  - apply HA1.
    destruct (Z.le_gt_cases (_lastEdited e) (_lastEdited B)) as [Hle|Hgt].
    + destruct (HB1 e Hle) as [_ ->]. lia.
    + rewrite HB2 by lia. exact He.
  - intros x Hx. apply (HA1 x Hx).
  - exact HA2.
Qed.

(** ** Reading within the declared bytes *)

Lemma agree_refl (c : Cursor) : agree c c.
Proof. split; reflexivity. Qed.


























(** Closing the side conditions on a given entity by computation. *)
Ltac wf_by_computation :=
  split;
  [ vm_compute; split; [discriminate|reflexivity]
  | let p := fresh "p" in
    intros p; destruct p; vm_compute; repeat split; try discriminate ].


Lemma encode_decode_roundtrip_witness :
  let P :=
    with_lastEdited 77
      (with_position (glm.mkvec3 0x3f000000 0x3f000000 0x3f000000)
         (with_dimensions (glm.mkvec3 0x3dcccccd 0x3dcccccd 0x3dcccccd)
            (with_script "hi"%string freshEntity))) in
  encodedSize P ALL_PROPERTIES = 112%nat
  /\ appendState (appendEntityData P 112 ALL_PROPERTIES) = COMPLETED
  /\ forall p,
       getProperty p
         (snd (readEntityDataFromBuffer (editOf P ALL_PROPERTIES 112)
                 (Z.of_nat (List.length (editOf P ALL_PROPERTIES 112))) true
                 freshEntity))
       = getProperty p P.
Proof.
  intros P. split; [reflexivity|].
  assert (HP : wf_entity P) by wf_by_computation.
  assert (Hb : (encodedSize P ALL_PROPERTIES <= 112)%nat) by (vm_compute; lia).
  destruct (encode_decode_roundtrip P 112 HP Hb) as (Hs & _ & Hp).
  split; [exact Hs|exact Hp].
Defined.

Lemma lastWriterWins_witness :
  let half := glm.mkvec3 0x3f000000 0x3f000000 0x3f000000 in
  let quarter := glm.mkvec3 0x3e800000 0x3e800000 0x3e800000 in
  let A := with_lastEdited 200 (with_position half freshEntity) in
  let B := with_lastEdited 100 (with_position quarter freshEntity) in
  let editA := editOf A (flagsOf [PROP_POSITION]) 22 in
  let editB := editOf B ALL_PROPERTIES 200 in
  getProperty PROP_POSITION (applyEdit editB (applyEdit editA freshEntity)) = VVec3 half
  /\ getProperty PROP_POSITION (applyEdit editA (applyEdit editB freshEntity))
     = VVec3 half.
Proof.
  intros half quarter A B editA editB.
  assert (HA : wf_entity A) by wf_by_computation.
  assert (HB : wf_entity B) by wf_by_computation.
  assert (HbA : (encodedSize A (flagsOf [PROP_POSITION]) <= 22)%nat)
    by (vm_compute; lia).
  assert (HbB : (encodedSize B ALL_PROPERTIES <= 200)%nat) by (vm_compute; lia).
  assert (Hlt : _lastEdited B < _lastEdited A) by reflexivity.
  assert (He : _lastEdited freshEntity <= _lastEdited A) by (vm_compute; discriminate).
  destruct (lastWriterWins A B freshEntity (flagsOf [PROP_POSITION]) ALL_PROPERTIES
              22 200 PROP_POSITION HA HB HbA HbB eq_refl eq_refl Hlt He)
    as (H1 & H2 & _).
  split; [exact H1|exact H2].
Defined.


(** * Further properties of the header's member functions *)

(** ** Clearing dirty flags *)

Lemma testbit_not32 (mask i : Z) :
  0 <= i -> Z.testbit (not32 mask) i = (i <? 32) && negb (Z.testbit mask i).
Proof.
  intros Hi. unfold not32.
  destruct (Z.ltb_spec i 32) as [Hlt|Hge]; cbn [andb].
  - rewrite Z.mod_pow2_bits_low by lia. now apply Z.lnot_spec.
  - apply Z.mod_pow2_bits_high. lia.
Qed.

Lemma testbit_uint32_high (a i : Z) :
  0 <= a < 2 ^ 32 -> 32 <= i -> Z.testbit a i = false.
Proof.
  intros Ha Hi. rewrite <- (Z.mod_small a (2 ^ 32)) by exact Ha.
  apply Z.mod_pow2_bits_high. lia.
Qed.

(** X1: [clearDirtyFlags mask] clears the flags of the mask and no other: a flag
    is set afterwards exactly when it was set before and is not in the mask;
    the flags remain a [uint32_t]. *)
Theorem clearDirtyFlags_bits (mask : Z) (e : EntityItem)
    (Hflags : 0 <= _dirtyFlags e < 2 ^ 32) :
  (forall i, 0 <= i ->
             Z.testbit (getDirtyFlags (clearDirtyFlags mask e)) i
             = Z.testbit (getDirtyFlags e) i && negb (Z.testbit mask i))
  /\ 0 <= getDirtyFlags (clearDirtyFlags mask e) < 2 ^ 32.
Proof.
  unfold getDirtyFlags, clearDirtyFlags.
  change (_dirtyFlags (with_dirtyFlags ?v e)) with v. split.
  - intros i Hi. rewrite Z.land_spec, testbit_not32 by exact Hi.
    destruct (Z.ltb_spec i 32) as [Hlt|Hge]; [reflexivity|].
    now rewrite (testbit_uint32_high _ i Hflags Hge).
  - split; [apply Z.land_nonneg; lia|].
    assert (Hn : 0 <= not32 mask < 2 ^ 32) by (apply Z.mod_pos_bound; lia).
    destruct (Z.eq_dec (Z.land (_dirtyFlags e) (not32 mask)) 0) as [->|Hnz]; [lia|].
    assert (0 <= Z.land (_dirtyFlags e) (not32 mask)) by (apply Z.land_nonneg; lia).
    apply Z.log2_lt_pow2; [lia|].
    eapply Z.le_lt_trans; [apply Z.log2_land; lia|].
    apply Z.min_lt_iff. left.
    apply Z.log2_lt_pow2; [|lia].
    destruct (Z.eq_dec (_dirtyFlags e) 0) as [E|]; [|lia].
    rewrite E, Z.land_0_l in Hnz. contradiction.
Qed.

Lemma clearDirtyFlags_bits_witness :
  let e := with_dirtyFlags (Z.lor DIRTY_POSITION (Z.lor DIRTY_MASS DIRTY_LIFETIME))
             freshEntity in
  getDirtyFlags (clearDirtyFlags DIRTY_MASS e) = Z.lor DIRTY_POSITION DIRTY_LIFETIME
  /\ Z.testbit (getDirtyFlags (clearDirtyFlags DIRTY_MASS e)) 6
     = Z.testbit (getDirtyFlags e) 6 && negb (Z.testbit DIRTY_MASS 6).
Proof.
  intros e. split; [reflexivity|].
  assert (H : 0 <= _dirtyFlags e < 2 ^ 32) by (vm_compute; split; [discriminate|reflexivity]).
  destruct (clearDirtyFlags_bits DIRTY_MASS e H) as [Hb _].
  apply Hb. lia.
Defined.

Lemma not32_lor (m1 m2 : Z) :
  Z.land (not32 m1) (not32 m2) = not32 (Z.lor m1 m2).
Proof.
  apply Z.bits_inj'. intros i Hi.
  rewrite Z.land_spec, !testbit_not32, Z.lor_spec by exact Hi.
  destruct (i <? 32), (Z.testbit m1 i), (Z.testbit m2 i); reflexivity.
Qed.

(** X2: clearing with one mask and then with another clears with the union of
    the masks; the order of two clears does not matter, and clearing twice
    with the same mask is clearing once. *)
Theorem clearDirtyFlags_compose (m1 m2 : Z) (e : EntityItem) :
  clearDirtyFlags m2 (clearDirtyFlags m1 e) = clearDirtyFlags (Z.lor m1 m2) e
  /\ clearDirtyFlags m2 (clearDirtyFlags m1 e) = clearDirtyFlags m1 (clearDirtyFlags m2 e)
  /\ clearDirtyFlags m1 (clearDirtyFlags m1 e) = clearDirtyFlags m1 e.
Proof.
  assert (H : forall a b, clearDirtyFlags b (clearDirtyFlags a e)
                          = clearDirtyFlags (Z.lor a b) e).
  { intros a b. unfold clearDirtyFlags.
    change (_dirtyFlags (with_dirtyFlags ?v e)) with v.
    rewrite <- Z.land_assoc, not32_lor. reflexivity. }
  split; [apply H|]. split.
  - rewrite !H. now rewrite Z.lor_comm.
  - rewrite H. now rewrite Z.lor_diag.
Qed.

(** ** The setters *)






(** ** Sequences of edits *)

Lemma last_cons_default {A : Type} (l : list A) (a d d' : A) :
  last (a :: l) d = last (a :: l) d'.
Proof.
  revert a. induction l as [|b l IH]; intros a; [reflexivity|].
  change (last (b :: l) d = last (b :: l) d'). apply IH.
Qed.

Lemma fold_max_ge (ts : list Z) : forall c, c <= fold_left Z.max ts c.
Proof.
  induction ts as [|a ts IH]; intros c; cbn [fold_left]; [lia|].
  etransitivity; [|apply IH]. lia.
Qed.

Lemma setLastEdited_fold (ts : list Z) :
  forall e,
    let e' := fold_left (fun x t => setLastEdited t x) ts e in
    _changedOnServer e' = fold_left Z.max ts (_changedOnServer e)
    /\ _lastEdited e' = last ts (_lastEdited e)
    /\ _lastUpdated e' = last ts (_lastUpdated e).
Proof.
  induction ts as [|t ts IH]; intros e; [simpl; auto|].
  cbn [fold_left]. destruct (IH (setLastEdited t e)) as (H1 & H2 & H3).
  cbn zeta. rewrite H1, H2, H3.
  change (_changedOnServer (setLastEdited t e)) with (glm.max t (_changedOnServer e)).
  change (_lastEdited (setLastEdited t e)) with t.
  change (_lastUpdated (setLastEdited t e)) with t.
  rewrite glm_max_spec, (Z.max_comm t).
  repeat split; destruct ts as [|z ts]; try reflexivity;
    change (last (t :: z :: ts) ?d) with (last (z :: ts) d);
    apply last_cons_default.
Qed.

(** X5: after any sequence of [setLastEdited] calls the changed-on-server time is
    the greatest of its previous value and all the times passed in, whatever
    their order, while the last-edited and last-updated times are the time of
    the last call. *)
Theorem setLastEdited_sequence (ts : list Z) (e : EntityItem) :
  _changedOnServer (fold_left (fun x t => setLastEdited t x) ts e)
  = fold_left Z.max ts (_changedOnServer e)
  /\ _lastEdited (fold_left (fun x t => setLastEdited t x) ts e)
     = last ts (_lastEdited e)
  /\ _lastUpdated (fold_left (fun x t => setLastEdited t x) ts e)
     = last ts (_lastUpdated e)
  /\ (forall t, In t ts ->
                t <= _changedOnServer (fold_left (fun x t => setLastEdited t x) ts e)).
Proof.
  destruct (setLastEdited_fold ts e) as (H1 & H2 & H3).
  split; [exact H1|]. split; [exact H2|]. split; [exact H3|].
  cbn zeta in H1. rewrite H1. clear.
  generalize (_changedOnServer e).
  induction ts as [|a ts IH]; intros c t Hin; [contradiction|].
  cbn [fold_left]. destruct Hin as [<-|Hin]; [|now apply IH].
  etransitivity; [|apply fold_max_ge]. lia.
Qed.

Lemma setLastEdited_sequence_witness :
  let e := fold_left (fun x t => setLastEdited t x) [5; 9; 3] freshEntity in
  _changedOnServer e = 9 /\ _lastEdited e = 3 /\ 5 <= _changedOnServer e.
Proof.
  intros e.
  destruct (setLastEdited_sequence [5; 9; 3] freshEntity) as (H1 & H2 & _ & H4).
  split; [exact H1|]. split; [exact H2|].
  apply H4. simpl. auto.
Defined.

Lemma sameOutsideTimestamps_step (e : EntityItem) (op : TimestampOp) :
  sameOutsideTimestamps e (stepTimestampOp e op).
Proof. destruct op; unfold sameOutsideTimestamps; simpl; repeat split. Qed.

Lemma sameOutsideTimestamps_trans (e1 e2 e3 : EntityItem) :
  sameOutsideTimestamps e1 e2 -> sameOutsideTimestamps e2 e3 ->
  sameOutsideTimestamps e1 e3.
Proof.
  unfold sameOutsideTimestamps. intros H1 H2.
  repeat match goal with H : _ /\ _ |- _ => destruct H end.
  repeat split; congruence.
Qed.

(** X6: no sequence of [setLastSimulated], [setLastEdited] and [update] calls,
    and no [markAsChangedOnServer], changes anything but the last-simulated,
    last-updated, last-edited and changed-on-server times: the properties,
    the identity, the creation time and the dirty flags stay as they are. *)
Theorem timestampOps_keep_the_rest (ops : list TimestampOp) (now : Z) (e : EntityItem) :
  sameOutsideTimestamps e (runTimestampOps ops e)
  /\ sameOutsideTimestamps e (markAsChangedOnServer now e)
  /\ _lastSimulated (markAsChangedOnServer now e) = _lastSimulated e
  /\ _lastUpdated (markAsChangedOnServer now e) = _lastUpdated e
  /\ _lastEdited (markAsChangedOnServer now e) = _lastEdited e.
Proof.
  split.
  - revert e. unfold runTimestampOps.
    induction ops as [|op ops IH]; intros e; simpl.
    + unfold sameOutsideTimestamps. repeat split.
    + eapply sameOutsideTimestamps_trans;
        [apply (sameOutsideTimestamps_step e op)|apply IH].
  - unfold sameOutsideTimestamps. simpl. repeat split.
Qed.

(** ** Comparisons of floats *)

Lemma eqb_refl_number (a : float) :
  Float32.isnan a = false -> Float32.eqb a a = true.
Proof.
  unfold Float32.isnan, Float32.eqb, SFeqb.
  destruct (Float32.to_spec a) as [s|s| |s m e]; simpl; try reflexivity;
    try discriminate; destruct s; try reflexivity;
    rewrite Z.compare_refl;
    change PosDef.Pos.compare_cont with Pos.compare_cont;
    now rewrite Pos.compare_cont_refl.
Qed.

Lemma eqb_nan_l (a b : float) : Float32.isnan a = true -> Float32.eqb a b = false.
Proof.
  unfold Float32.isnan, Float32.eqb, SFeqb.
  destruct (Float32.to_spec a); try discriminate. reflexivity.
Qed.

Lemma eqb_nan_r (a b : float) : Float32.isnan b = true -> Float32.eqb a b = false.
Proof.
  unfold Float32.isnan, Float32.eqb, SFeqb.
  destruct (Float32.to_spec b); try discriminate.
  now destruct (Float32.to_spec a).
Qed.

Lemma eqb_zero (a z : float) : iszero z = true -> Float32.eqb a z = iszero a.
Proof.
  unfold iszero, Float32.eqb, SFeqb.
  destruct (Float32.to_spec z) as [sz| | |]; try discriminate. intros _.
  destruct (Float32.to_spec a) as [s|s| |s m e]; simpl; try reflexivity;
    now destruct s.
Qed.

Lemma leb_not_ltb (a b : spec_float) : SFleb a b = true -> SFltb b a = false.
Proof.
  unfold SFleb, SFltb. rewrite (Float32Facts.SFcompare_antisym a b).
  destruct (SFcompare a b) as [[ | | ]|]; simpl; try reflexivity; discriminate.
Qed.

Lemma clampf_below (c : float) :
  Float32.ltb c Float32.zero = true -> glm.clampf c Float32.zero Float32.one = Float32.zero.
Proof. unfold glm.clampf, glm.maxf. intros ->. reflexivity. Qed.

Lemma clampf_above (c : float) :
  Float32.ltb Float32.one c = true -> glm.clampf c Float32.zero Float32.one = Float32.one.
Proof.
  intros H1. unfold glm.clampf, glm.maxf, glm.minf.
  assert (H0 : Float32.ltb c Float32.zero = false).
  { unfold Float32.ltb, SFltb in *.
    change (Float32.to_spec Float32.one) with (S754_finite false 8388608 (-23)) in H1.
    change (Float32.to_spec Float32.zero) with (S754_zero false).
    destruct (Float32.to_spec c) as [s|s| |s m e]; simpl in *; try discriminate;
      destruct s; try discriminate; reflexivity. }
  now rewrite H0, H1.
Qed.

Lemma clampf_in_range (c : float) :
  inUnitRange c = true -> glm.clampf c Float32.zero Float32.one = c.
Proof.
  unfold inUnitRange, Float32.leb. intros H.
  apply andb_true_iff in H. destruct H as [H0 H1].
  apply leb_not_ltb in H0. apply leb_not_ltb in H1.
  unfold glm.clampf, glm.maxf, glm.minf, Float32.ltb. now rewrite H0, H1.
Qed.

Lemma clampf_idempotent (c : float) :
  glm.clampf (glm.clampf c Float32.zero Float32.one) Float32.zero Float32.one
  = glm.clampf c Float32.zero Float32.one.
Proof.
  destruct (Float32.ltb c Float32.zero) eqn:H0.
  - now rewrite (clampf_below c H0).
  - destruct (Float32.ltb Float32.one c) eqn:H1.
    + now rewrite (clampf_above c H1).
    + assert (E : glm.clampf c Float32.zero Float32.one = c)
        by (unfold glm.clampf, glm.maxf, glm.minf; now rewrite H0, H1).
      now rewrite !E.
Qed.

Lemma isnan_abs (c : float) : Float32.isnan (Float32.abs c) = Float32.isnan c.
Proof.
  unfold Float32.isnan. rewrite Float32Facts.to_spec_abs.
  now destruct (Float32.to_spec c).
Qed.

Lemma leb_zero_abs (c : float) : nonNegativeOrNaN c (Float32.abs c) = true.
Proof.
  unfold nonNegativeOrNaN, Float32.isnan, Float32.leb.
  rewrite Float32Facts.to_spec_abs.
  change (Float32.to_spec Float32.zero) with (S754_zero false).
  now destruct (Float32.to_spec c).
Qed.

Lemma abs_negf (c : float) : Float32.abs (negf c) = Float32.abs c.
Proof.
  unfold Float32.abs, negf. apply Z.bits_inj'. intros i Hi.
  rewrite !Z.land_spec, Z.lxor_spec.
  destruct (Z.eq_dec i 31) as [->|Hne].
  - change (Z.testbit 0x7fffffff 31) with false. now rewrite !andb_false_r.
  - replace (Z.testbit 0x80000000 i) with false; [now rewrite xorb_false_r|].
    symmetry. change 0x80000000 with (2 ^ 31). apply Z.pow2_bits_false. lia.
Qed.

Lemma abs_idempotent (c : float) : Float32.abs (Float32.abs c) = Float32.abs c.
Proof. unfold Float32.abs. now rewrite <- Z.land_assoc. Qed.

(** ** The registration point and the position in domain units *)

(** X7: the registration point that [setRegistrationPoint] stores lies within
    [[0, 1]] in every coordinate that was given as a number; setting the
    registration point that is read back changes nothing; and a registration
    point given within [[0, 1]] is read back equal to what was given. *)
Theorem setRegistrationPoint_range (v : glm.vec3) (e : EntityItem) :
  (Float32.isnan (glm.x v)
   || inUnitRange (glm.x (getRegistrationPoint (setRegistrationPoint v e))) = true)
  /\ (Float32.isnan (glm.y v)
      || inUnitRange (glm.y (getRegistrationPoint (setRegistrationPoint v e))) = true)
  /\ (Float32.isnan (glm.z v)
      || inUnitRange (glm.z (getRegistrationPoint (setRegistrationPoint v e))) = true)
  /\ setRegistrationPoint (getRegistrationPoint (setRegistrationPoint v e))
       (setRegistrationPoint v e)
     = setRegistrationPoint v e
  /\ (inUnitRange (glm.x v) && inUnitRange (glm.y v) && inUnitRange (glm.z v) = true ->
      eq_vec3 (getRegistrationPoint (setRegistrationPoint v e)) v = true).
Proof.
  split; [apply (Float32Facts.clampf_unit (glm.x v))|].
  split; [apply (Float32Facts.clampf_unit (glm.y v))|].
  split; [apply (Float32Facts.clampf_unit (glm.z v))|].
  split.
  - unfold setRegistrationPoint, getRegistrationPoint.
    change (_registrationPoint (with_registrationPoint ?w e)) with w.
    unfold glm.clamp at 1. cbn [glm.x glm.y glm.z glm.clamp].
    rewrite !clampf_idempotent. reflexivity.
  - intros H. apply andb_true_iff in H. destruct H as [H Hz].
    apply andb_true_iff in H. destruct H as [Hx Hy].
    unfold eq_vec3, getRegistrationPoint, setRegistrationPoint.
    change (_registrationPoint (with_registrationPoint ?w e)) with w.
    cbn [glm.x glm.y glm.z glm.clamp].
    rewrite !clampf_in_range by assumption.
    assert (Hn : forall c, inUnitRange c = true -> Float32.eqb c c = true).
    { intros c Hc. apply eqb_refl_number.
      unfold inUnitRange, Float32.leb, SFleb in Hc. unfold Float32.isnan.
      apply andb_true_iff in Hc. destruct Hc as [_ Hc].
      now destruct (Float32.to_spec c). }
    now rewrite !Hn.
Qed.

Lemma setRegistrationPoint_range_witness :
  let half := 0x3f000000 in
  let v := glm.mkvec3 Float32.zero half Float32.one in
  eq_vec3 (getRegistrationPoint (setRegistrationPoint v freshEntity)) v = true.
Proof.
  intros half v.
  destruct (setRegistrationPoint_range v freshEntity) as (_ & _ & _ & _ & H).
  apply H. vm_compute. reflexivity.
Defined.

(** X8: a coordinate above one, infinity included, is stored as 1.0 by
    [setRegistrationPoint] and as one world scale by
    [setPositionInDomainUnits]; a coordinate below zero, minus infinity
    included, is stored as 0.0 by the one and as zero times the world scale
    by the other. *)
Theorem domainUnits_saturate (TREE_SCALE : float) (v : glm.vec3) (e : EntityItem) :
  saturates (glm.x v) (glm.x (getRegistrationPoint (setRegistrationPoint v e)))
    Float32.zero Float32.one
  /\ saturates (glm.y v) (glm.y (getRegistrationPoint (setRegistrationPoint v e)))
       Float32.zero Float32.one
  /\ saturates (glm.z v) (glm.z (getRegistrationPoint (setRegistrationPoint v e)))
       Float32.zero Float32.one
  /\ saturates (glm.x v)
       (glm.x (getPositionInMeters (setPositionInDomainUnits TREE_SCALE v e)))
       (Float32.mul Float32.zero TREE_SCALE) (Float32.mul Float32.one TREE_SCALE)
  /\ saturates (glm.y v)
       (glm.y (getPositionInMeters (setPositionInDomainUnits TREE_SCALE v e)))
       (Float32.mul Float32.zero TREE_SCALE) (Float32.mul Float32.one TREE_SCALE)
  /\ saturates (glm.z v)
       (glm.z (getPositionInMeters (setPositionInDomainUnits TREE_SCALE v e)))
       (Float32.mul Float32.zero TREE_SCALE) (Float32.mul Float32.one TREE_SCALE).
Proof.
  unfold saturates, getRegistrationPoint, setRegistrationPoint, getPositionInMeters,
    setPositionInDomainUnits, setPositionInMeters.
  change (_registrationPoint (with_registrationPoint ?w e)) with w.
  change (_position (with_position ?w e)) with w.
  cbn [glm.x glm.y glm.z glm.clamp glm.scale].
  repeat split; intros H;
    first [ now rewrite (clampf_above _ H) | now rewrite (clampf_below _ H) ].
Qed.

Lemma domainUnits_saturate_witness :
  let TREE_SCALE := 0x46800000 in
  let v := glm.mkvec3 0x7f800000 0xbf800000 0x40000000 in
  getRegistrationPoint (setRegistrationPoint v freshEntity)
  = glm.mkvec3 Float32.one Float32.zero Float32.one
  /\ glm.x (getPositionInMeters (setPositionInDomainUnits TREE_SCALE v freshEntity))
     = TREE_SCALE
  /\ glm.y (getPositionInMeters (setPositionInDomainUnits TREE_SCALE v freshEntity))
     = Float32.zero.
Proof.
  intros TREE_SCALE v.
  destruct (domainUnits_saturate TREE_SCALE v freshEntity)
    as ((Hx & _) & (_ & Hy) & (Hz & _) & (Px & _) & (_ & Py) & _).
  assert (Lx : Float32.ltb Float32.one (glm.x v) = true) by (vm_compute; reflexivity).
  assert (Ly : Float32.ltb (glm.y v) Float32.zero = true) by (vm_compute; reflexivity).
  assert (Lz : Float32.ltb Float32.one (glm.z v) = true) by (vm_compute; reflexivity).
  split.
  - specialize (Hx Lx). specialize (Hy Ly). specialize (Hz Lz).
    destruct (getRegistrationPoint (setRegistrationPoint v freshEntity)) as [a b c].
    cbn [glm.x glm.y glm.z] in *. now subst.
  - split; [rewrite (Px Lx)|rewrite (Py Ly)]; vm_compute; reflexivity.
Defined.

(** ** Dimensions *)

(** X9: the dimensions that [setDimensionsInMeters] stores are not negative in
    any coordinate that was given as a number; the sign of what is given does
    not matter, in meters or in domain units: a vector and its negation give
    dimensions that compare equal; and setting the dimensions that are read
    back gives dimensions that compare equal to them. *)
Theorem setDimensions_sign (TREE_SCALE : float) (v : glm.vec3) (e : EntityItem) :
  let d := getDimensionsInMeters (setDimensionsInMeters v e) in
  let d' := getDimensionsInMeters (setDimensionsInMeters (negv v) e) in
  let d'' := getDimensionsInMeters (setDimensionsInMeters d (setDimensionsInMeters v e)) in
  let u := getDimensionsInMeters (setDimensionsInDomainUnits TREE_SCALE v e) in
  let u' := getDimensionsInMeters (setDimensionsInDomainUnits TREE_SCALE (negv v) e) in
  nonNegativeOrNaN (glm.x v) (glm.x d) = true
  /\ nonNegativeOrNaN (glm.y v) (glm.y d) = true
  /\ nonNegativeOrNaN (glm.z v) (glm.z d) = true
  /\ equalOrNaN (glm.x v) (glm.x d') (glm.x d) = true
  /\ equalOrNaN (glm.y v) (glm.y d') (glm.y d) = true
  /\ equalOrNaN (glm.z v) (glm.z d') (glm.z d) = true
  /\ equalOrNaN (glm.x v) (glm.x d'') (glm.x d) = true
  /\ equalOrNaN (glm.y v) (glm.y d'') (glm.y d) = true
  /\ equalOrNaN (glm.z v) (glm.z d'') (glm.z d) = true
  /\ equalOrNaN (glm.x u) (glm.x u') (glm.x u) = true
  /\ equalOrNaN (glm.y u) (glm.y u') (glm.y u) = true
  /\ equalOrNaN (glm.z u) (glm.z u') (glm.z u) = true.
Proof.
  assert (Habs : forall c, equalOrNaN c (Float32.abs c) (Float32.abs c) = true).
  { intros c. unfold equalOrNaN. destruct (Float32.isnan c) eqn:Hn; [reflexivity|].
    cbn [orb]. apply eqb_refl_number. now rewrite isnan_abs. }
  assert (Hself : forall c, equalOrNaN c c c = true).
  { intros c. unfold equalOrNaN. destruct (Float32.isnan c) eqn:Hn; [reflexivity|].
    cbn [orb]. now apply eqb_refl_number. }
  cbv zeta.
  unfold getDimensionsInMeters, setDimensionsInMeters, setDimensionsInDomainUnits.
  repeat change (_dimensions (with_dimensions ?w ?x)) with w.
  cbn [glm.x glm.y glm.z glm.abs glm.scale negv].
  rewrite !abs_negf, !abs_idempotent.
  repeat split; first [ apply leb_zero_abs | apply Habs | apply Hself ].
Qed.

(** ** Motion and mortality *)

(** X10: with the zero vector of the defaults made of zeros, an entity has a
    velocity unless the three coordinates of its velocity are zeros, of
    either sign: a coordinate that is not a number or is infinite counts as
    motion.  The same holds of the gravity and of the angular velocity, and
    setting the velocity to the zero vector leaves the entity without
    velocity. *)
Theorem hasVelocity_zero (ZERO : glm.vec3) (e : EntityItem)
    (Hzero : iszero (glm.x ZERO) && iszero (glm.y ZERO) && iszero (glm.z ZERO) = true) :
  hasVelocity ZERO e
  = negb (iszero (glm.x (_velocity e)) && iszero (glm.y (_velocity e))
          && iszero (glm.z (_velocity e)))
  /\ hasGravity ZERO e
     = negb (iszero (glm.x (_gravity e)) && iszero (glm.y (_gravity e))
             && iszero (glm.z (_gravity e)))
  /\ hasAngularVelocity ZERO e
     = negb (iszero (glm.x (_angularVelocity e)) && iszero (glm.y (_angularVelocity e))
             && iszero (glm.z (_angularVelocity e)))
  /\ hasVelocity ZERO (setVelocityInMeters ZERO e) = false
  /\ hasGravity ZERO (setGravityInMeters ZERO e) = false
  /\ hasAngularVelocity ZERO (setAngularVelocity ZERO e) = false.
Proof.
  apply andb_true_iff in Hzero. destruct Hzero as [Hzero Hz].
  apply andb_true_iff in Hzero. destruct Hzero as [Hx Hy].
  assert (H : forall a, ne_vec3 a ZERO
                        = negb (iszero (glm.x a) && iszero (glm.y a) && iszero (glm.z a))).
  { intros a. unfold ne_vec3.
    rewrite (eqb_zero _ _ Hx), (eqb_zero _ _ Hy), (eqb_zero _ _ Hz).
    now destruct (iszero (glm.x a)), (iszero (glm.y a)), (iszero (glm.z a)). }
  unfold hasVelocity, hasGravity, hasAngularVelocity, setVelocityInMeters,
    setGravityInMeters, setAngularVelocity.
  rewrite !H.
  change (_velocity (with_velocity ?w e)) with w.
  change (_gravity (with_gravity ?w e)) with w.
  change (_angularVelocity (with_angularVelocity ?w e)) with w.
  rewrite Hx, Hy, Hz. repeat split.
Qed.

Lemma hasVelocity_zero_witness :
  let ZERO := glm.mkvec3 0 0 0 in
  let minusZero := 0x80000000 in
  let nan := 0x7fc00000 in
  hasVelocity ZERO (setVelocityInMeters (glm.mkvec3 minusZero 0 minusZero) freshEntity)
  = false
  /\ hasVelocity ZERO (setVelocityInMeters (glm.mkvec3 0 nan 0) freshEntity) = true.
Proof.
  intros ZERO minusZero nan.
  split.
  - destruct (hasVelocity_zero ZERO
                (setVelocityInMeters (glm.mkvec3 minusZero 0 minusZero) freshEntity)
                eq_refl) as [H _].
    rewrite H. vm_compute. reflexivity.
  - destruct (hasVelocity_zero ZERO
                (setVelocityInMeters (glm.mkvec3 0 nan 0) freshEntity) eq_refl)
      as [H _].
    rewrite H. vm_compute. reflexivity.
Defined.

(** X11: an entity is mortal exactly when it is not immortal; an entity whose
    lifetime is not a number is mortal; setting the lifetime to the immortal
    lifetime makes the entity immortal as long as that constant is a number,
    and were it not a number no entity would be immortal. *)
Theorem lifetime_mortality (ENTITY_ITEM_IMMORTAL_LIFETIME : float) (e : EntityItem) :
  isMortal ENTITY_ITEM_IMMORTAL_LIFETIME e
  = negb (isImmortal ENTITY_ITEM_IMMORTAL_LIFETIME e)
  /\ (Float32.isnan (getLifetime e) = true ->
      isMortal ENTITY_ITEM_IMMORTAL_LIFETIME e = true)
  /\ (Float32.isnan ENTITY_ITEM_IMMORTAL_LIFETIME = true ->
      isMortal ENTITY_ITEM_IMMORTAL_LIFETIME e = true)
  /\ (Float32.isnan ENTITY_ITEM_IMMORTAL_LIFETIME = false ->
      isImmortal ENTITY_ITEM_IMMORTAL_LIFETIME
        (setLifetime ENTITY_ITEM_IMMORTAL_LIFETIME e) = true).
Proof.
  unfold isMortal, isImmortal, getLifetime, setLifetime.
  change (_lifetime (with_lifetime ?w e)) with w.
  split; [reflexivity|]. split; [|split].
  - intros H. now rewrite (eqb_nan_l _ _ H).
  - intros H. now rewrite (eqb_nan_r _ _ H).
  - intros H. now apply eqb_refl_number.
Qed.

Lemma lifetime_mortality_witness :
  let IMMORTAL := 0xbf800000 in
  let nan := 0x7fc00000 in
  isImmortal IMMORTAL (setLifetime IMMORTAL freshEntity) = true
  /\ isMortal IMMORTAL (setLifetime nan freshEntity) = true.
Proof.
  intros IMMORTAL nan.
  destruct (lifetime_mortality IMMORTAL freshEntity) as (_ & _ & _ & H).
  destruct (lifetime_mortality IMMORTAL (setLifetime nan freshEntity)) as (_ & Hn & _).
  split; [apply H; vm_compute; reflexivity|apply Hn; vm_compute; reflexivity].
Defined.

(** * interface/src/avatar/Avatar.cpp *)

(** X12: with the menu option [NamesAboveHeads] unchecked,
    [setShowDisplayName] makes the name invisible whatever it is asked to
    show and keeps the target alpha it found; with the option checked the
    target alpha is [DISPLAYNAME_ALPHA] or zero as asked, the alpha follows
    at once for the user's own avatar and is left alone for another avatar,
    so that the name of another avatar is still invisible right after the
    option is checked again; calling twice with the same arguments is calling
    once. *)
Theorem setShowDisplayName_cases (isMyAvatar showDisplayName show' : bool)
    (a : AvatarDisplayName) :
  setShowDisplayName false isMyAvatar showDisplayName a
  = mkAvatarDisplayName Float32.zero (_displayNameTargetAlpha a)
  /\ _displayNameTargetAlpha (setShowDisplayName true isMyAvatar showDisplayName a)
     = (if showDisplayName then DISPLAYNAME_ALPHA else Float32.zero)
  /\ _displayNameAlpha (setShowDisplayName true true showDisplayName a)
     = _displayNameTargetAlpha (setShowDisplayName true true showDisplayName a)
  /\ _displayNameAlpha (setShowDisplayName true false showDisplayName a)
     = _displayNameAlpha a
  /\ _displayNameAlpha
       (setShowDisplayName true false showDisplayName
          (setShowDisplayName false false show' a))
     = Float32.zero
  /\ (forall namesAboveHeads,
         setShowDisplayName namesAboveHeads isMyAvatar showDisplayName
           (setShowDisplayName namesAboveHeads isMyAvatar showDisplayName a)
         = setShowDisplayName namesAboveHeads isMyAvatar showDisplayName a).
Proof.
  split; [reflexivity|]. split; [reflexivity|]. split; [reflexivity|].
  split; [reflexivity|]. split; [reflexivity|].
  intros namesAboveHeads.
  destruct namesAboveHeads, isMyAvatar, showDisplayName; reflexivity.
Qed.

